(** * next-up: the schedule query engine and the schedule source watcher

    A shallow embedding of [scheduleManager.js] (class [ScheduleManager]),
    of [scheduleFileManager.js] (class [ScheduleFileManager]) and of the
    tray menu of [main.js] ([createContextMenu]), followed by the
    properties of the natural-language specification that were checked
    against them and by further properties of the same code.

    Conventions of the embedding.
    - A JavaScript string is a [string]: a sequence of code units below 256.
    - A JavaScript number is a [JS.number]: [NaN] or an exact integer
      (no rounding of large values).  The engine builds its numbers from the
      digit runs of time strings, from the fields of a [Date] and from
      integer arithmetic on them; [JS.Number] is modelled on the integer
      literals (optional sign, decimal digits, surrounding white space, the
      empty string) and answers [NaN] elsewhere, so time strings whose
      fields are fractions, exponents or hexadecimal literals are outside
      the model.
    - A call that can throw returns a [JS.completion]: [Return v] or
      [Throw e].
    - A document is typed: a block has four string fields, a day maps to a
      list of blocks, the configuration has an optional integer threshold and
      an optional text.
    - [new Date()] inside a method body reads the wall clock; the clock value
      is an explicit argument [now] of every method that reads it.  The
      default arguments [new Date()] of the calls in [createContextMenu]
      are read at that same instant.
    - The file system is what the two classes see of the schedule folder:
      whether it exists and, per entry, the name, the modification time and
      the outcome of reading it; [readdirSync], [statSync] and [fs.watch]
      are taken to succeed.
    - The event loop is discrete: instants are integers (milliseconds), a
      timer runs at its due instant, and a file event delivered at an
      instant finds the timers due by then already run. *)

From Stdlib Require Import ZArith List String Ascii Bool Lia DecimalString DecimalPos.
From stdpp Require Import base option gmap strings.
Import ListNotations.

Local Open Scope string_scope.
Local Open Scope Z_scope.

(* ===================================================================== *)
(** ** The JavaScript primitives the two classes use                      *)
(* ===================================================================== *)

Module JS.

Inductive number : Type :=
| NaN
| Num (z : Z).

Inductive exn : Type :=
| Error (message : string)
| TypeError (message : string).

Inductive completion (A : Type) : Type :=
| Return (a : A)
| Throw (e : exn).
Arguments Return {A} a.
Arguments Throw {A} e.

Definition bind {A B} (c : completion A) (k : A -> completion B) : completion B :=
  match c with
  | Return a => k a
  | Throw e => Throw e
  end.

Definition message_of (e : exn) : string :=
  match e with
  | Error m => m
  | TypeError m => m
  end.

(** *** Numbers *)

Definition add (a b : number) : number :=
  match a, b with
  | Num x, Num y => Num (x + y)
  | _, _ => NaN
  end.

Definition sub (a b : number) : number :=
  match a, b with
  | Num x, Num y => Num (x - y)
  | _, _ => NaN
  end.

Definition mul (a b : number) : number :=
  match a, b with
  | Num x, Num y => Num (x * y)
  | _, _ => NaN
  end.

(** [a % b]: the sign of the result is the sign of the dividend;
    [x % 0] is [NaN]. *)
Definition rem (a b : number) : number :=
  match a, b with
  | Num x, Num y => if y =? 0 then NaN else Num (Z.rem x y)
  | _, _ => NaN
  end.

(** [Math.floor(a / b)] for a non-zero integer divisor [b]. *)
Definition floor_div (a b : number) : number :=
  match a, b with
  | Num x, Num y => if y =? 0 then NaN else Num (x / y)
  | _, _ => NaN
  end.

(** Comparisons: every comparison with [NaN] is false. *)
Definition lt (a b : number) : bool :=
  match a, b with
  | Num x, Num y => x <? y
  | _, _ => false
  end.

Definition le (a b : number) : bool :=
  match a, b with
  | Num x, Num y => x <=? y
  | _, _ => false
  end.

Definition gt (a b : number) : bool := lt b a.
Definition ge (a b : number) : bool := le b a.

Definition strict_eq (a b : number) : bool :=
  match a, b with
  | Num x, Num y => x =? y
  | _, _ => false
  end.

(** Truthiness of a number: [0] and [NaN] are falsy. *)
Definition truthy (a : number) : bool :=
  match a with
  | NaN => false
  | Num z => negb (z =? 0)
  end.

(** [String(n)] and [`${n}`]. *)
Definition String_ (a : number) : string :=
  match a with
  | NaN => "NaN"
  | Num z => NilZero.string_of_int (Z.to_int z)
  end.

(** [String(x)] where [x] may be [undefined]. *)
Definition String_opt (a : option number) : string :=
  match a with
  | None => "undefined"
  | Some n => String_ n
  end.

(** *** Characters *)

Definition code (c : ascii) : N := N_of_ascii c.

Definition isDigit (c : ascii) : bool :=
  ((48 <=? code c) && (code c <=? 57))%N.

Definition digitValue (c : ascii) : Z := Z.of_N (code c) - 48.

(** White space and line terminators below 256: TAB, LF, VT, FF, CR,
    SP and NBSP.  [trim] and the class [\s] use the same set. *)
Definition isWhiteSpace (c : ascii) : bool :=
  let n := code c in
  ((n =? 9) || (n =? 10) || (n =? 11) || (n =? 12) || (n =? 13)
   || (n =? 32) || (n =? 160))%N.

Definition toLowerChar (c : ascii) : ascii :=
  let n := code c in
  if (((65 <=? n) && (n <=? 90))
      || ((192 <=? n) && (n <=? 222) && negb (n =? 215)))%N
  then ascii_of_N (n + 32) else c.

(** A letter of a pattern under the flag [i]. *)
Definition matchesLetter (letter c : ascii) : bool :=
  Ascii.eqb (toLowerChar c) letter.

(** *** Strings *)

Fixpoint toLowerCase (s : string) : string :=
  match s with
  | EmptyString => EmptyString
  | String c r => String (toLowerChar c) (toLowerCase r)
  end.

Fixpoint trimStart (s : string) : string :=
  match s with
  | EmptyString => EmptyString
  | String c r => if isWhiteSpace c then trimStart r else s
  end.

Fixpoint trimEnd (s : string) : string :=
  match s with
  | EmptyString => EmptyString
  | String c r =>
      match trimEnd r with
      | EmptyString => if isWhiteSpace c then EmptyString else String c EmptyString
      | r' => String c r'
      end
  end.

Definition trim (s : string) : string := trimEnd (trimStart s).

(** [s.split(sep)] for a one-character separator. *)
Fixpoint split (sep : ascii) (s : string) : list string :=
  match s with
  | EmptyString => [EmptyString]
  | String c r =>
      if Ascii.eqb c sep then EmptyString :: split sep r
      else match split sep r with
           | h :: t => String c h :: t
           | [] => [String c EmptyString]
           end
  end.

Fixpoint repeatChar (n : nat) (c : ascii) : string :=
  match n with
  | O => EmptyString
  | S k => String c (repeatChar k c)
  end.

(** [s.padStart(target, fill)] for a one-character [fill]. *)
Definition padStart (target : nat) (fill : ascii) (s : string) : string :=
  repeatChar (target - String.length s) fill ++ s.

Fixpoint startsWith (p s : string) : bool :=
  match p, s with
  | EmptyString, _ => true
  | String a p', String b s' => Ascii.eqb a b && startsWith p' s'
  | String _ _, EmptyString => false
  end.

Fixpoint includes (p s : string) : bool :=
  startsWith p s ||
  match s with
  | EmptyString => false
  | String _ r => includes p r
  end.

Fixpoint endsWith (p s : string) : bool :=
  String.eqb p s ||
  match s with
  | EmptyString => false
  | String _ r => endsWith p r
  end.

Fixpoint drop (n : nat) (s : string) : string :=
  match n, s with
  | O, _ => s
  | S k, String _ r => drop k r
  | S _, EmptyString => EmptyString
  end.

(** *** [Number(s)] and [parseInt(s, 10)] on digit runs *)

Fixpoint digitsValue (acc : Z) (s : string) : option Z :=
  match s with
  | EmptyString => Some acc
  | String c r =>
      if isDigit c then digitsValue (10 * acc + digitValue c) r else None
  end.

Definition unsignedValue (s : string) : option Z :=
  match s with
  | EmptyString => None
  | _ => digitsValue 0 s
  end.

Definition Number (s : string) : number :=
  match trim s with
  | EmptyString => Num 0
  | String c r as t =>
      if Ascii.eqb c "-" then
        match unsignedValue r with
        | Some z => Num (- z)
        | None => NaN
        end
      else if Ascii.eqb c "+" then
        match unsignedValue r with
        | Some z => Num z
        | None => NaN
        end
      else
        match unsignedValue t with
        | Some z => Num z
        | None => NaN
        end
  end.

(** [parseInt(s, 10)]: leading white space, an optional sign, and the
    longest prefix of digits; [NaN] when there is no digit. *)
Fixpoint digitPrefixValue (acc : option Z) (s : string) : option Z :=
  match s with
  | EmptyString => acc
  | String c r =>
      if isDigit c
      then digitPrefixValue (Some (10 * default 0 acc + digitValue c)) r
      else acc
  end.

Definition parseInt (s : string) : number :=
  match trimStart s with
  | String c r as t =>
      if Ascii.eqb c "-" then
        match digitPrefixValue None r with
        | Some z => Num (- z)
        | None => NaN
        end
      else
        match digitPrefixValue None (if Ascii.eqb c "+" then r else t) with
        | Some z => Num z
        | None => NaN
        end
  | EmptyString => NaN
  end.

(** *** [s.replace(/token/g, replacement)] for a literal token

    The replacement text is expanded as [String.prototype.replace] does
    for a pattern without capture groups: [$$] is a dollar sign, [$&] the
    matched text, [$`] the text before the match, [$'] the text after it;
    any other [$] is kept. *)
Fixpoint expandReplacement (repl matched before after : string) : string :=
  match repl with
  | EmptyString => EmptyString
  | String c r =>
      if Ascii.eqb c "$" then
        match r with
        | String d r' =>
            if Ascii.eqb d "$" then
              String "$" (expandReplacement r' matched before after)
            else if Ascii.eqb d "&" then
              matched ++ expandReplacement r' matched before after
            else if Ascii.eqb d "`" then
              before ++ expandReplacement r' matched before after
            else if Ascii.eqb d "'" then
              after ++ expandReplacement r' matched before after
            else String c (expandReplacement r matched before after)
        | EmptyString => String c EmptyString
        end
      else String c (expandReplacement r matched before after)
  end.

(** The scan of a global replace: [before] is the text already passed,
    [skip] the number of characters of the current match still to pass. *)
Fixpoint replaceScan (token repl : string) (skip : nat) (before rest : string)
  : string :=
  match rest with
  | EmptyString => EmptyString
  | String c r =>
      match skip with
      | S k => replaceScan token repl k (before ++ String c EmptyString) r
      | O =>
          if startsWith token rest then
            expandReplacement repl token before
              (drop (String.length token) rest)
            ++ replaceScan token repl (String.length token - 1)
                 (before ++ String c EmptyString) r
          else
            String c
              (replaceScan token repl O (before ++ String c EmptyString) r)
      end
  end.

(** [s.replace(/token/g, repl)], [token] a non-empty literal. *)
Definition replaceAll (token repl s : string) : string :=
  replaceScan token repl O EmptyString s.

End JS.

Declare Scope js_scope.
Delimit Scope js_scope with js.
Notation "'do' x <- c ; k" := (JS.bind c (fun x => k))
  (at level 10, x name, c at level 100, k at level 200) : js_scope.
Local Open Scope js_scope.

(* ===================================================================== *)
(** ** scheduleFileManager.js: class ScheduleFileManager                  *)
(* ===================================================================== *)

Module ScheduleFileManager.
Import JS.

(** What [readdirSync], [statSync] and [readFileSync] see of one entry
    of the schedule folder. *)
Record File : Type := {
  name : string;
  mtimeMs : Z;
  content : completion string
}.

(** The schedule folder: [None] when it does not exist, else its entries
    in directory order.  [mkdirFails] tells whether [mkdirSync] would
    throw. *)
Record FileSystem : Type := {
  folder : option (list File);
  mkdirFails : bool
}.

(** The fields of an instance. *)
Record t : Type := {
  scheduleFolderPath : string;
  fileWatcher : bool;
  changeCallback : option nat;
  debounceTimer : option nat
}.

Definition pathJoin (dir file : string) : string := dir ++ "/" ++ file.

Definition ensureScheduleFolderExists (this : t) (fsys : FileSystem)
  : bool * FileSystem :=
  match folder fsys with
  | Some _ => (true, fsys)
  | None =>
      if mkdirFails fsys then (false, fsys)
      else (true, {| folder := Some []; mkdirFails := mkdirFails fsys |})
  end.

Definition isYamlName (file : string) : bool :=
  endsWith ".yaml" file || endsWith ".yml" file.

Definition isSuspicious (file : string) : bool :=
  includes ".." file || includes "/" file || includes "\" file.

(** One turn of the [for] loop over [yamlFiles]; the accumulator is
    [(mostRecentFile, mostRecentTime)]. *)
Definition mostRecentStep (this : t) (acc : option string * Z) (f : File)
  : option string * Z :=
  if isSuspicious (name f) then acc
  else
    let filePath := pathJoin (scheduleFolderPath this) (name f) in
    let modifiedTime := mtimeMs f in
    if snd acc <? modifiedTime then (Some filePath, modifiedTime) else acc.

Definition getMostRecentScheduleFile (this : t) (fsys : FileSystem)
  : option string :=
  match folder fsys with
  | None => None
  | Some files =>
      let yamlFiles := List.filter (fun f => isYamlName (name f)) files in
      match yamlFiles with
      | [] => None
      | _ => fst (fold_left (mostRecentStep this) yamlFiles (None, 0))
      end
  end.

Definition hasScheduleFile (this : t) (fsys : FileSystem) : bool :=
  match getMostRecentScheduleFile this fsys with
  | Some _ => true
  | None => false
  end.

(** [fs.readFileSync(path, 'utf8')] on a path of the schedule folder. *)
Definition readFileSync (this : t) (fsys : FileSystem) (path : string)
  : completion string :=
  match folder fsys with
  | None => Throw (Error "ENOENT")
  | Some files =>
      match List.find
              (fun f => String.eqb (pathJoin (scheduleFolderPath this) (name f)) path)
              files with
      | Some f => content f
      | None => Throw (Error "ENOENT")
      end
  end.

(** *** The watcher on the event loop

    The loop owns the clock, the pending timers (in creation order) and
    the log of the instants at which the change callback was invoked.
    Every timer of this class is created by the watch handler with the
    same body and the same delay. *)
Record Timer : Type := { timerId : nat; due : Z }.

Record Loop : Type := {
  clock : Z;
  timers : list Timer;
  nextTimerId : nat;
  invoked : list Z;
  self : t
}.

Definition debounceDelay : Z := 300.

Definition setSelf (l : Loop) (s : t) : Loop :=
  {| clock := clock l; timers := timers l; nextTimerId := nextTimerId l;
     invoked := invoked l; self := s |}.

Definition watchScheduleFolder (callback : option nat) (l : Loop) : Loop :=
  setSelf l {| scheduleFolderPath := scheduleFolderPath (self l);
               fileWatcher := true;
               changeCallback := callback;
               debounceTimer := debounceTimer (self l) |}.

Definition clearTimeout (id : option nat) (l : Loop) : Loop :=
  match id with
  | None => l
  | Some i =>
      {| clock := clock l;
         timers := List.filter (fun tm => negb (Nat.eqb (timerId tm) i)) (timers l);
         nextTimerId := nextTimerId l;
         invoked := invoked l;
         self := self l |}
  end.

Definition setTimeout (delay : Z) (l : Loop) : nat * Loop :=
  (nextTimerId l,
   {| clock := clock l;
      timers := timers l ++ [{| timerId := nextTimerId l; due := clock l + delay |}];
      nextTimerId := S (nextTimerId l);
      invoked := invoked l;
      self := self l |}).

(** The listener given to [fs.watch]. *)
Definition onWatchEvent (filename : option string) (l : Loop) : Loop :=
  match filename with
  | None => l
  | Some EmptyString => l
  | Some file =>
      if negb (endsWith ".yaml" file) && negb (endsWith ".yml" file) then l
      else
        let l1 := clearTimeout (debounceTimer (self l)) l in
        let '(id, l2) := setTimeout debounceDelay l1 in
        setSelf l2 {| scheduleFolderPath := scheduleFolderPath (self l2);
                      fileWatcher := fileWatcher (self l2);
                      changeCallback := changeCallback (self l2);
                      debounceTimer := Some id |}
  end.

(** The body of the debounce timer, run at instant [at]. *)
Definition onDebounce (at_ : Z) (l : Loop) : Loop :=
  match changeCallback (self l) with
  | Some _ =>
      {| clock := at_; timers := timers l; nextTimerId := nextTimerId l;
         invoked := invoked l ++ [at_]; self := self l |}
  | None =>
      {| clock := at_; timers := timers l; nextTimerId := nextTimerId l;
         invoked := invoked l; self := self l |}
  end.

(** Runs the pending timers that are due at [now_] or earlier. *)
Definition runTimers (now_ : Z) (l : Loop) : Loop :=
  let dueNow := List.filter (fun tm => due tm <=? now_) (timers l) in
  let later := List.filter (fun tm => negb (due tm <=? now_)) (timers l) in
  let l1 := {| clock := clock l; timers := later; nextTimerId := nextTimerId l;
               invoked := invoked l; self := self l |} in
  let l2 := fold_left (fun acc tm => onDebounce (due tm) acc) dueNow l1 in
  {| clock := Z.max (clock l2) now_; timers := timers l2;
     nextTimerId := nextTimerId l2; invoked := invoked l2; self := self l2 |}.

(** Runs every pending timer, whatever its due instant. *)
Definition drain (l : Loop) : Loop :=
  fold_left (fun acc tm => onDebounce (due tm) acc) (timers l)
    {| clock := clock l; timers := []; nextTimerId := nextTimerId l;
       invoked := invoked l; self := self l |}.

(** A file-system event reaches the listener at instant [fst ev], after
    the timers due by then. *)
Definition deliver (l : Loop) (ev : Z * option string) : Loop :=
  let l1 := runTimers (fst ev) l in
  if fileWatcher (self l1) then onWatchEvent (snd ev) l1 else l1.

Definition run (events : list (Z * option string)) (l : Loop) : Loop :=
  drain (fold_left deliver events l).

Definition stopWatchingScheduleFolder (l : Loop) : Loop :=
  let l1 := match debounceTimer (self l) with
            | Some _ => clearTimeout (debounceTimer (self l)) l
            | None => l
            end in
  setSelf l1 {| scheduleFolderPath := scheduleFolderPath (self l1);
                fileWatcher := false;
                changeCallback := None;
                debounceTimer := None |}.

(** The listener of the watcher's ['error'] event: stop, then watch again
    with [this.changeCallback] as it is once [stopWatchingScheduleFolder]
    has returned. *)
Definition onWatcherError (l : Loop) : Loop :=
  let l1 := stopWatchingScheduleFolder l in
  watchScheduleFolder (changeCallback (self l1)) l1.

(** A fresh instance on an idle loop. *)
Definition new (path : string) : t :=
  {| scheduleFolderPath := path; fileWatcher := false;
     changeCallback := None; debounceTimer := None |}.

Definition idle (start : Z) (s : t) : Loop :=
  {| clock := start; timers := []; nextTimerId := O; invoked := []; self := s |}.

End ScheduleFileManager.

(* ===================================================================== *)
(** ** scheduleManager.js: class ScheduleManager                          *)
(* ===================================================================== *)

Module ScheduleManager.
Import JS.

(** One entry of a day's list. *)
Record Block : Type := {
  blockName : string;
  description : string;
  startTime : string;
  endTime : string
}.

(** [this.config] once [loadSchedule] has filled in the defaults. *)
Record Config : Type := {
  countdownThreshold : Z;
  noClassText : string
}.

(** The [config] object as the document gives it. *)
Record RawConfig : Type := {
  rawCountdownThreshold : option Z;
  rawNoClassText : option string
}.

(** The methods of a [Date] the engine calls. *)
Record Date : Type := {
  getDay : nat;
  getHours : Z;
  getMinutes : Z;
  getSeconds : Z
}.

(** The fields of an instance; [None] is [null]. *)
Record t : Type := {
  schedule : option (gmap string (list Block));
  config : option Config;
  fileManager : ScheduleFileManager.t
}.

(** *** Time strings *)

(** [/am|pm/i.test(s)] *)
Fixpoint hasPeriodMarker (s : string) : bool :=
  match s with
  | EmptyString => false
  | String a r =>
      match r with
      | String b _ =>
          ((matchesLetter "a" a || matchesLetter "p" a) && matchesLetter "m" b)
          || hasPeriodMarker r
      | EmptyString => false
      end
  end.

(** [(am|pm)] at the head of [s]; the captured text is as written. *)
Definition periodHere (s : string) : option string :=
  match s with
  | String a (String b _) =>
      if (matchesLetter "a" a || matchesLetter "p" a) && matchesLetter "m" b
      then Some (String a (String b EmptyString)) else None
  | _ => None
  end.

(** [\s*] is greedy and the period cannot start with white space. *)
Fixpoint skipWhiteSpace (s : string) : string :=
  match s with
  | EmptyString => EmptyString
  | String c r => if isWhiteSpace c then skipWhiteSpace r else s
  end.

(** [:(\d{2})\s*(am|pm)] at the head of [s]. *)
Definition minutesAndPeriodHere (s : string) : option (string * string) :=
  match s with
  | String c (String m1 (String m2 r)) =>
      if Ascii.eqb c ":" && isDigit m1 && isDigit m2 then
        match periodHere (skipWhiteSpace r) with
        | Some p => Some (String m1 (String m2 EmptyString), p)
        | None => None
        end
      else None
  | _ => None
  end.

(** [(\d{1,2}):(\d{2})\s*(am|pm)] at the head of [s]: two digits are
    tried first, then one. *)
Definition timeHere (s : string) : option (string * string * string) :=
  match s with
  | String d1 r =>
      if isDigit d1 then
        let twoDigits :=
          match r with
          | String d2 r2 =>
              if isDigit d2 then
                match minutesAndPeriodHere r2 with
                | Some (mm, p) => Some (String d1 (String d2 EmptyString), mm, p)
                | None => None
                end
              else None
          | EmptyString => None
          end in
        match twoDigits with
        | Some m => Some m
        | None =>
            match minutesAndPeriodHere r with
            | Some (mm, p) => Some (String d1 EmptyString, mm, p)
            | None => None
            end
        end
      else None
  | EmptyString => None
  end.

(** [s.match(/(\d{1,2}):(\d{2})\s*(am|pm)/i)]: the leftmost match, as
    the triple of its groups. *)
Fixpoint matchTime (s : string) : option (string * string * string) :=
  match timeHere s with
  | Some m => Some m
  | None =>
      match s with
      | EmptyString => None
      | String _ r => matchTime r
      end
  end.

Definition normalizeTo24Hour (timeStr : string) : completion string :=
  let trimmed := trim timeStr in
  if hasPeriodMarker trimmed then
    match matchTime trimmed with
    | None => Throw (Error ("Invalid 12-hour time format: " ++ timeStr))
    | Some (g1, g2, g3) =>
        let hours := parseInt g1 in
        let minutes := g2 in
        let period := toLowerCase g3 in
        let hours :=
          if String.eqb period "pm" && negb (strict_eq hours (Num 12))
          then add hours (Num 12)
          else if String.eqb period "am" && strict_eq hours (Num 12)
          then Num 0
          else hours in
        Return (padStart 2 "0" (String_ hours) ++ ":" ++ minutes)
    end
  else Return trimmed.

(** [const [hours, minutes] = s.split(':').map(Number)]: the second
    component is [undefined] when there is no colon. *)
Definition hoursAndMinutes (s : string) : number * option number :=
  match List.map Number (split ":" s) with
  | h :: m :: _ => (h, Some m)
  | [h] => (h, None)
  | [] => (NaN, None)
  end.

(** [x + undefined] is [NaN]. *)
Definition addOpt (a : number) (b : option number) : number :=
  match b with
  | Some n => add a n
  | None => NaN
  end.

Definition timeToMinutes (timeStr : string) : completion number :=
  do normalized <- normalizeTo24Hour timeStr;
  let '(hours, minutes) := hoursAndMinutes normalized in
  Return (addOpt (mul hours (Num 60)) minutes).

Definition formatTo12Hour (timeStr : string) : string :=
  let '(hours, minutes) := hoursAndMinutes timeStr in
  let period := if ge hours (Num 12) then "PM" else "AM" in
  let displayHours :=
    let r := rem hours (Num 12) in
    if truthy r then r else Num 12 in
  String_ displayHours ++ ":" ++ padStart 2 "0" (String_opt minutes)
    ++ " " ++ period.

(** *** Today's list *)

Definition days : list string :=
  ["Sunday"; "Monday"; "Tuesday"; "Wednesday"; "Thursday"; "Friday"; "Saturday"].

(** [days[date.getDay()]]; out of range the index gives [undefined],
    which as a property key reads ["undefined"]. *)
Definition getDayName (date : Date) : string :=
  nth (getDay date) days "undefined".

(** [now] is the value of [new Date()] in the body. *)
Definition getTodaySchedule (this : t) (now : Date) : completion (list Block) :=
  let dayName := getDayName now in
  match schedule this with
  | None => Throw (TypeError "Cannot read properties of null")
  | Some sched => Return (default [] (sched !! dayName))
  end.

(** [Array.prototype.find] with a predicate that may throw. *)
Fixpoint find {A : Type} (p : A -> completion bool) (l : list A)
  : completion (option A) :=
  match l with
  | [] => Return None
  | x :: r =>
      do b <- p x;
      if b then Return (Some x) else find p r
  end.

Definition currentMinutesOf (dateTime : Date) : number :=
  add (mul (Num (getHours dateTime)) (Num 60)) (Num (getMinutes dateTime)).

Definition getCurrentClass (this : t) (now dateTime : Date)
  : completion (option Block) :=
  do todaySchedule <- getTodaySchedule this now;
  let currentMinutes := currentMinutesOf dateTime in
  find (fun cls =>
          do startMinutes <- timeToMinutes (startTime cls);
          do endMinutes <- timeToMinutes (endTime cls);
          Return (ge currentMinutes startMinutes && lt currentMinutes endMinutes))
       todaySchedule.

Definition getNextClass (this : t) (now dateTime : Date)
  : completion (option Block) :=
  do todaySchedule <- getTodaySchedule this now;
  let currentMinutes := currentMinutesOf dateTime in
  find (fun cls =>
          do startMinutes <- timeToMinutes (startTime cls);
          Return (gt startMinutes currentMinutes))
       todaySchedule.

(** *** Countdowns *)

(** Lines 193-203: the tail of [getTimeRemainingInClass]. *)
Definition remainingInClassText (remainingSeconds : number) : string :=
  if le remainingSeconds (Num 0) then "0:00:00"
  else
    let hours := floor_div remainingSeconds (Num 3600) in
    let minutes := floor_div (rem remainingSeconds (Num 3600)) (Num 60) in
    let seconds := rem remainingSeconds (Num 60) in
    if gt hours (Num 0) then
      String_ hours ++ ":" ++ padStart 2 "0" (String_ minutes)
        ++ ":" ++ padStart 2 "0" (String_ seconds)
    else
      String_ minutes ++ ":" ++ padStart 2 "0" (String_ seconds).

Definition getTimeRemainingInClass (this : t) (now dateTime : Date)
  : completion (option string) :=
  do currentClass <- getCurrentClass this now dateTime;
  match currentClass with
  | None => Return None
  | Some currentClass =>
      let currentMinutes := currentMinutesOf dateTime in
      let currentSeconds := Num (getSeconds dateTime) in
      let totalCurrentSeconds := add (mul currentMinutes (Num 60)) currentSeconds in
      do endMinutes <- timeToMinutes (endTime currentClass);
      let totalEndSeconds := mul endMinutes (Num 60) in
      let remainingSeconds := sub totalEndSeconds totalCurrentSeconds in
      Return (Some (remainingInClassText remainingSeconds))
  end.

(** Lines 223-233: the tail of [getTimeUntilNextClass]. *)
Definition untilNextClassText (remainingSeconds : number) : string :=
  if le remainingSeconds (Num 0) then "0:00:00"
  else
    let hours := floor_div remainingSeconds (Num 3600) in
    let minutes := floor_div (rem remainingSeconds (Num 3600)) (Num 60) in
    let seconds := rem remainingSeconds (Num 60) in
    if gt hours (Num 0) then
      String_ hours ++ ":" ++ padStart 2 "0" (String_ minutes)
        ++ ":" ++ padStart 2 "0" (String_ seconds)
    else
      String_ minutes ++ ":" ++ padStart 2 "0" (String_ seconds).

Definition getTimeUntilNextClass (this : t) (now dateTime : Date)
  : completion (option string) :=
  do nextClass <- getNextClass this now dateTime;
  match nextClass with
  | None => Return None
  | Some nextClass =>
      let currentMinutes := currentMinutesOf dateTime in
      let currentSeconds := Num (getSeconds dateTime) in
      let totalCurrentSeconds := add (mul currentMinutes (Num 60)) currentSeconds in
      do startMinutes <- timeToMinutes (startTime nextClass);
      let totalStartSeconds := mul startMinutes (Num 60) in
      let remainingSeconds := sub totalStartSeconds totalCurrentSeconds in
      Return (Some (untilNextClassText remainingSeconds))
  end.

Definition getMinutesUntilNextClass (this : t) (now dateTime : Date)
  : completion (option number) :=
  do nextClass <- getNextClass this now dateTime;
  match nextClass with
  | None => Return None
  | Some nextClass =>
      let currentMinutes := currentMinutesOf dateTime in
      do startMinutes <- timeToMinutes (startTime nextClass);
      Return (Some (sub startMinutes currentMinutes))
  end.

(** [this.config.field]; [this.config] may be [null]. *)
Definition readConfig (this : t) : completion Config :=
  match config this with
  | Some c => Return c
  | None => Throw (TypeError "Cannot read properties of null")
  end.

(** A string in a condition: [null] and the empty string are falsy. *)
Definition truthyText (s : option string) : bool :=
  match s with
  | Some (String _ _) => true
  | _ => false
  end.

(** ["text" + x] where [x] may be [null]. *)
Definition textOrNull (s : option string) : string := default "null" s.

(** [x <= n] where [x] may be [null], which compares as [0]. *)
Definition leNullable (x : option number) (n : number) : bool :=
  le (default (Num 0) x) n.

Definition getDisplayTime (this : t) (now dateTime : Date) : completion string :=
  do currentClass <- getCurrentClass this now dateTime;
  match currentClass with
  | Some _ =>
      do remaining <- getTimeRemainingInClass this now dateTime;
      Return ("Done In: " ++ textOrNull remaining)
  | None =>
      do timeUntilNext <- getTimeUntilNextClass this now dateTime;
      do shown <-
        (if truthyText timeUntilNext then
           do minutesUntilNext <- getMinutesUntilNextClass this now dateTime;
           do cfg <- readConfig this;
           if leNullable minutesUntilNext (Num (countdownThreshold cfg))
           then Return (Some ("Next In: " ++ textOrNull timeUntilNext))
           else Return None
         else Return None);
      match shown with
      | Some text => Return text
      | None =>
          do cfg <- readConfig this;
          Return (noClassText cfg)
      end
  end.

(** *** Description templates *)

Definition newline : ascii := ascii_of_N 10.

(** The four chained [replace] calls. *)
Definition substituteVariables (template blockName_ durationStr start12 end12 : string)
  : string :=
  replaceAll "$EndTime" end12
    (replaceAll "$StartTime" start12
       (replaceAll "$Duration" durationStr
          (replaceAll "$Block" blockName_ template))).

Definition renderDescriptionTemplate (template : string) (classObj : Block)
  : completion (list string) :=
  do startMinutes <- timeToMinutes (startTime classObj);
  do endMinutes <- timeToMinutes (endTime classObj);
  let duration := sub endMinutes startMinutes in
  let hours := floor_div duration (Num 60) in
  let minutes := rem duration (Num 60) in
  let durationStr :=
    if gt hours (Num 0)
    then String_ hours ++ ":" ++ padStart 2 "0" (String_ minutes)
    else String_ minutes in
  do startTime24 <- normalizeTo24Hour (startTime classObj);
  do endTime24 <- normalizeTo24Hour (endTime classObj);
  let rendered :=
    substituteVariables template (blockName classObj) durationStr
      (formatTo12Hour startTime24) (formatTo12Hour endTime24) in
  let lines :=
    List.filter (fun line => (0 <? String.length line)%nat)
      (List.map trim (split newline rendered)) in
  Return lines.

(** *** Details for the menu *)

(** [s || fallback] on strings: the empty string is falsy. *)
Definition orElse (s fallback : string) : string :=
  match s with
  | EmptyString => fallback
  | String _ _ => s
  end.

Module CurrentDetails.
Record t : Type := {
  blockName : string;
  description : string;
  descriptionLines : list string;
  startTime : string;
  endTime : string;
  timeRemaining : option string
}.
End CurrentDetails.

Module NextDetails.
Record t : Type := {
  blockName : string;
  description : string;
  descriptionLines : list string;
  startTime : string;
  endTime : string
}.
End NextDetails.

Definition getCurrentClassDetails (this : t) (now dateTime : Date)
  : completion (option CurrentDetails.t) :=
  do currentClass <- getCurrentClass this now dateTime;
  match currentClass with
  | None => Return None
  | Some currentClass =>
      do descriptionLines <-
        renderDescriptionTemplate (orElse (description currentClass) EmptyString)
          currentClass;
      do timeRemaining <- getTimeRemainingInClass this now dateTime;
      Return (Some {| CurrentDetails.blockName := orElse (blockName currentClass) "Unknown";
                      CurrentDetails.description :=
                        orElse (description currentClass) EmptyString;
                      CurrentDetails.descriptionLines := descriptionLines;
                      CurrentDetails.startTime := startTime currentClass;
                      CurrentDetails.endTime := endTime currentClass;
                      CurrentDetails.timeRemaining := timeRemaining |})
  end.

Definition getNextClassDetails (this : t) (now dateTime : Date)
  : completion (option NextDetails.t) :=
  do nextClass <- getNextClass this now dateTime;
  match nextClass with
  | None => Return None
  | Some nextClass =>
      do descriptionLines <-
        renderDescriptionTemplate (orElse (description nextClass) EmptyString)
          nextClass;
      Return (Some {| NextDetails.blockName := orElse (blockName nextClass) "Unknown";
                      NextDetails.description :=
                        orElse (description nextClass) EmptyString;
                      NextDetails.descriptionLines := descriptionLines;
                      NextDetails.startTime := startTime nextClass;
                      NextDetails.endTime := endTime nextClass |})
  end.

(** *** Loading *)

(** A value read from the parsed document, as the validation in
    [loadSchedule] tells values apart: falsy ([undefined], [null], ...),
    truthy but not of type ['object'], or an object. *)
Inductive Value (A : Type) : Type :=
| Falsy
| NotAnObject
| Object (a : A).
Arguments Falsy {A}.
Arguments NotAnObject {A}.
Arguments Object {A} a.

(** The two properties [loadSchedule] reads of a parsed document. *)
Record Document : Type := {
  dataSchedule : Value (gmap string (list Block));
  dataConfig : Value RawConfig
}.

(** The instance and the file system, threaded through the body of
    [loadSchedule]. *)
Definition World : Type := (t * ScheduleFileManager.FileSystem)%type.

Definition Action (A : Type) : Type := World -> completion A * World.

Definition ret {A} (a : A) : Action A := fun w => (Return a, w).
Definition throw {A} (e : exn) : Action A := fun w => (Throw e, w).
Definition lift {A} (c : completion A) : Action A := fun w => (c, w).

Definition andThen {A B} (m : Action A) (k : A -> Action B) : Action B :=
  fun w =>
    match m w with
    | (Return a, w') => k a w'
    | (Throw e, w') => (Throw e, w')
    end.

(** [try { body } catch (error) { handler(error) }] *)
Definition tryCatch {A} (body : Action A) (handler : exn -> Action A) : Action A :=
  fun w =>
    match body w with
    | (Return a, w') => (Return a, w')
    | (Throw e, w') => handler e w'
    end.

Definition setConfig (c : Config) : Action unit :=
  fun w =>
    (Return tt,
     ({| schedule := schedule (fst w); config := Some c;
         fileManager := fileManager (fst w) |}, snd w)).

Definition setSchedule (s : gmap string (list Block)) : Action unit :=
  fun w =>
    (Return tt,
     ({| schedule := Some s; config := config (fst w);
         fileManager := fileManager (fst w) |}, snd w)).

Definition ensureScheduleFolderExists : Action bool :=
  fun w =>
    let '(ok, fsys) :=
      ScheduleFileManager.ensureScheduleFolderExists (fileManager (fst w)) (snd w) in
    (Return ok, (fst w, fsys)).

Definition getMostRecentScheduleFile : Action (option string) :=
  fun w =>
    (Return (ScheduleFileManager.getMostRecentScheduleFile (fileManager (fst w)) (snd w)), w).

Definition readFileSync (path : string) : Action string :=
  fun w => (ScheduleFileManager.readFileSync (fileManager (fst w)) (snd w) path, w).

(** [this.config = data.config] followed by the two [??=]: the stored
    object has both fields set. *)
Definition withDefaults (c : RawConfig) : Config :=
  {| countdownThreshold := default 30 (rawCountdownThreshold c);
     noClassText := default ":)" (rawNoClassText c) |}.

Section Loading.

(** [YAML.parse] of the [yaml] package. *)
Variable YAML_parse : string -> completion (Value Document).

Local Notation "'run' x <- c ; k" := (andThen c (fun x => k))
  (at level 10, x name, c at level 100, k at level 200).

Definition loadSchedule : Action unit :=
  tryCatch
    (run _ok <- ensureScheduleFolderExists;
     run userScheduleFile <- getMostRecentScheduleFile;
     match userScheduleFile with
     | None => throw (Error "No schedule file found in user folder")
     | Some userScheduleFile =>
         run fileContent <- readFileSync userScheduleFile;
         run data <- lift (YAML_parse fileContent);
         match data with
         | Falsy | NotAnObject =>
             throw (Error "Invalid schedule format: expected object")
         | Object data =>
             match dataSchedule data with
             | Falsy | NotAnObject =>
                 throw (Error "Invalid schedule format: missing or invalid schedule property")
             | Object schedule_ =>
                 match dataConfig data with
                 | Falsy | NotAnObject =>
                     throw (Error "Invalid schedule format: missing or invalid config property")
                 | Object config_ =>
                     run _c <- setConfig (withDefaults config_);
                     setSchedule schedule_
                 end
             end
         end
     end)
    (fun error => throw (Error ("Failed to load schedule: " ++ message_of error))).

Definition reloadSchedule : Action unit := loadSchedule.

(** The constructor: both fields [null], then [loadSchedule]. *)
Definition new (fm : ScheduleFileManager.t) (fsys : ScheduleFileManager.FileSystem)
  : completion unit * World :=
  loadSchedule ({| schedule := None; config := None; fileManager := fm |}, fsys).

End Loading.

End ScheduleManager.

(* ===================================================================== *)
(** ** main.js: the tray menu                                             *)
(* ===================================================================== *)

Module Main.
Import JS.

(** What a [click] handler of the menu does. *)
Inductive Click : Type :=
| QuitApp.

(** An entry of [menuTemplate]; [None] is a property the literal does not
    set. *)
Record MenuItem : Type := {
  label : option string;
  type : string;
  enabled : option bool;
  click : option Click
}.

Definition lineItem (line : string) : MenuItem :=
  {| label := Some line; type := "normal"; enabled := Some true; click := None |}.

(** [createContextMenu()]: [scheduleManager] is the module variable, [None]
    when it is [null]; the calls take their default [new Date()], read as
    [now]; the result is the template given to [Menu.buildFromTemplate]. *)
Definition createContextMenu (scheduleManager : option ScheduleManager.t)
  (now : ScheduleManager.Date) : completion (list MenuItem) :=
  match scheduleManager with
  | None => Throw (TypeError "Cannot read properties of null")
  | Some manager =>
      do classDetails <- ScheduleManager.getCurrentClassDetails manager now now;
      do menuTemplate <-
        match classDetails with
        | Some details =>
            Return (List.map lineItem (ScheduleManager.CurrentDetails.descriptionLines details))
        | None =>
            do nextClassDetails <- ScheduleManager.getNextClassDetails manager now now;
            match nextClassDetails with
            | Some details =>
                Return ({| label := Some "Next Up:"; type := "normal";
                           enabled := Some false; click := None |}
                        :: List.map lineItem
                             (ScheduleManager.NextDetails.descriptionLines details))
            | None => Return [lineItem "No Class"]
            end
        end;
      Return (menuTemplate
              ++ [{| label := None; type := "separator"; enabled := None; click := None |};
                  {| label := Some "Quit"; type := "normal"; enabled := None;
                     click := Some QuitApp |}])%list
  end.

End Main.

(* ===================================================================== *)
(** ** The vocabulary of the properties                                  *)
(* ===================================================================== *)

Import JS.

Module Countdown.

Definition digitChar (d : Z) : ascii := ascii_of_N (48 + Z.to_N d).

(** The decimal rendering of a non-negative integer, without padding. *)
Definition unpadded (n : Z) : string := NilZero.string_of_int (Z.to_int n).

(** The two-digit rendering of [0 <= n < 100], zero-padded. *)
Definition twoDigits (n : Z) : string :=
  String (digitChar (n / 10)) (String (digitChar (n mod 10)) EmptyString).

(** The countdown text in the words of the specification: ["0:00:00"]
    at or after expiry, ["H:MM:SS"] from one hour on, ["M:SS"] below. *)
Definition CountdownFormatter (s : Z) : string :=
  if s <=? 0 then "0:00:00"
  else
    let h := s / 3600 in
    let m := (s mod 3600) / 60 in
    let sec := s mod 60 in
    if 0 <? h
    then unpadded h ++ ":" ++ twoDigits m ++ ":" ++ twoDigits sec
    else unpadded m ++ ":" ++ twoDigits sec.

End Countdown.

Import Countdown.

Import ScheduleManager.

Module Examples.

Definition block (n s e : string) : Block :=
  {| blockName := n; description := EmptyString; startTime := s; endTime := e |}.

Definition manager : ScheduleFileManager.t :=
  ScheduleFileManager.new "/Users/u/Library/Application Support/Next Up/schedules".

Definition loaded (sched : gmap string (list Block)) : ScheduleManager.t :=
  {| schedule := Some sched;
     config := Some {| countdownThreshold := 30; noClassText := ":)" |};
     fileManager := manager |}.

Definition moment (day : nat) (h m s : Z) : Date :=
  {| getDay := day; getHours := h; getMinutes := m; getSeconds := s |}.

(** A document with a single Monday block. *)
Definition mondayOnly : ScheduleManager.t :=
  loaded (<["Monday" := [block "A1" "9:00 AM" "10:05 AM"]]> ∅).

End Examples.

(** The conditions under which the body of [loadSchedule] reaches its two
    assignments. *)
Definition loadable (YAML_parse : string -> completion (Value Document))
  (w : World) (s : gmap string (list Block)) (c : RawConfig) : Prop :=
  exists path text d,
    ScheduleFileManager.getMostRecentScheduleFile (fileManager (fst w)) (snd w) = Some path
    /\ ScheduleFileManager.readFileSync (fileManager (fst w)) (snd w) path = Return text
    /\ YAML_parse text = Return (Object d)
    /\ dataSchedule d = Object s
    /\ dataConfig d = Object c.

Module LoadExample.

Definition parseNothing (text : string) : completion (Value Document) :=
  Throw (Error "bad indentation of a mapping entry").

(** A folder whose only schedule file does not parse. *)
Definition broken : ScheduleFileManager.FileSystem :=
  {| ScheduleFileManager.folder :=
       Some [{| ScheduleFileManager.name := "schedule.yaml";
                ScheduleFileManager.mtimeMs := 1700000000000;
                ScheduleFileManager.content := Return "schedule: [" |}];
     ScheduleFileManager.mkdirFails := false |}.

End LoadExample.

Module FM := ScheduleFileManager.

(** A file the scan of [getMostRecentScheduleFile] looks at: a schedule
    file extension and no suspicious name. *)
Definition candidate (f : FM.File) : bool :=
  FM.isYamlName (FM.name f) && negb (FM.isSuspicious (FM.name f)).

Module EpochExample.

(** A folder whose only entry is a schedule file dated at the epoch. *)
Definition epochFolder : FM.FileSystem :=
  {| FM.folder := Some [{| FM.name := "schedule.yaml"; FM.mtimeMs := 0;
                           FM.content := Return "config: {}" |}];
     FM.mkdirFails := false |}.

End EpochExample.

(** The predicate of [getCurrentClass], by name. *)
Definition isCurrentAt (currentMinutes : number) (cls : Block) : completion bool :=
  do startMinutes <- timeToMinutes (startTime cls);
  do endMinutes <- timeToMinutes (endTime cls);
  Return (ge currentMinutes startMinutes && lt currentMinutes endMinutes).

(** The predicate of [getNextClass], by name. *)
Definition isUpcomingAt (currentMinutes : number) (cls : Block) : completion bool :=
  do startMinutes <- timeToMinutes (startTime cls);
  Return (gt startMinutes currentMinutes).

(** Both times of a block have minutes: [normalizeTo24Hour] throws on
    neither. *)
Definition timesParse (cls : Block) : bool :=
  match timeToMinutes (startTime cls), timeToMinutes (endTime cls) with
  | Return _, Return _ => true
  | _, _ => false
  end.

Definition startParses (cls : Block) : bool :=
  match timeToMinutes (startTime cls) with
  | Return _ => true
  | Throw _ => false
  end.

(** [start <= m < end], the minutes computed by [timeToMinutes]; a block
    one of whose times has no minutes does not satisfy it. *)
Definition covers (m : Z) (cls : Block) : bool :=
  match timeToMinutes (startTime cls), timeToMinutes (endTime cls) with
  | Return s, Return e => ge (Num m) s && lt (Num m) e
  | _, _ => false
  end.

(** [start > m], the minutes computed by [timeToMinutes]. *)
Definition startsAfter (m : Z) (cls : Block) : bool :=
  match timeToMinutes (startTime cls) with
  | Return s => gt s (Num m)
  | Throw _ => false
  end.

(** Today's list of a loaded instance. *)
Definition todayOf (sched : gmap string (list Block)) (now : Date) : list Block :=
  default [] (sched !! getDayName now).

Definition minutesOf (m : Date) : Z := getHours m * 60 + getMinutes m.

Module ScanExamples.
Import Examples.

(** Monday: a block whose start is not a time, then a regular block. *)
Definition withBadTime : ScheduleManager.t :=
  loaded (<["Monday" := [block "Lunch" "noon pm" "1:00 PM";
                         block "A1" "9:00 AM" "10:05 AM"]]> ∅).

(** Monday: two regular blocks. *)
Definition regular : ScheduleManager.t :=
  loaded (<["Monday" := [block "A1" "9:00 AM" "10:05 AM";
                         block "B2" "10:10 AM" "11:15 AM"]]> ∅).

(** Monday: the afternoon block is listed before the morning block. *)
Definition unsorted : ScheduleManager.t :=
  loaded (<["Monday" := [block "PM" "1:00 PM" "2:00 PM";
                         block "AM" "9:00 AM" "10:00 AM"]]> ∅).

Definition monday : Date := moment 1 0 0 0.

End ScanExamples.

Module TimePattern.

Fixpoint allChars (p : ascii -> bool) (s : string) : bool :=
  match s with
  | EmptyString => true
  | String c r => p c && allChars p r
  end.

(** The text of a period marker: [am] or [pm], in either case. *)
Definition isPeriodText (g : string) : bool :=
  match g with
  | String a (String b EmptyString) =>
      (matchesLetter "a" a || matchesLetter "p" a) && matchesLetter "m" b
  | _ => false
  end.

(** One or two digits. *)
Definition isHourText (g : string) : bool :=
  allChars isDigit g
  && (Nat.eqb (String.length g) 1 || Nat.eqb (String.length g) 2).

(** Exactly two digits. *)
Definition isMinuteText (g : string) : bool :=
  allChars isDigit g && Nat.eqb (String.length g) 2.

(** [s] contains a period marker. *)
Definition containsPeriod (s : string) : Prop :=
  exists pre g post, s = pre ++ g ++ post /\ isPeriodText g = true.

(** [s] starts with an hour of one or two digits, a colon, a minute of
    exactly two digits, optional white space and a period marker. *)
Definition matchesAt (s g1 g2 g3 : string) : Prop :=
  isHourText g1 = true /\ isMinuteText g2 = true /\ isPeriodText g3 = true
  /\ exists ws post,
       allChars isWhiteSpace ws = true
       /\ s = g1 ++ ":" ++ g2 ++ ws ++ g3 ++ post.

(** The pattern occurs somewhere in [s]. *)
Definition occursIn (s g1 g2 g3 : string) : Prop :=
  exists pre rest, s = pre ++ rest /\ matchesAt rest g1 g2 g3.

(** The value of a run of digits. *)
Definition hourValue (g : string) : Z := default 0 (digitsValue 0 g).

Definition isPM (g : string) : bool := String.eqb (toLowerCase g) "pm".

(** 12 AM is hour 0, 12 PM stays 12, PM otherwise adds 12. *)
Definition hour24 (h : Z) (pm : bool) : Z :=
  if pm then (if h =? 12 then 12 else h + 12)
  else (if h =? 12 then 0 else h).

End TimePattern.

Import TimePattern.

Module Template.





(** The minutes since midnight of a normalized time. *)
Definition minutesOfNormalized (t24 : string) : number :=
  let '(hours, minutes) := hoursAndMinutes t24 in
  addOpt (mul hours (Num 60)) minutes.

End Template.

Import Template.

Definition startsClean (s : string) : bool :=
  match s with
  | EmptyString => true
  | String c _ => negb (isWhiteSpace c)
  end.

Module Debounce.

(** An event the listener acts on: a non-empty file name with a schedule
    file extension. *)
Definition qualifies (filename : option string) : bool :=
  match filename with
  | Some (String _ _ as file) => endsWith ".yaml" file || endsWith ".yml" file
  | _ => false
  end.

(** The instants of the qualifying events, in order. *)
Definition qualifyingTimes (events : list (Z * option string)) : list Z :=
  List.map fst (List.filter (fun ev => qualifies (snd ev)) events).

(** The instants follow one another from [from] on. *)
Fixpoint inOrder (from : Z) (ts : list Z) : bool :=
  match ts with
  | [] => true
  | t :: r => (from <=? t) && inOrder t r
  end.

(** Every event comes less than the delay after the one before. *)
Fixpoint burst (ts : list Z) : bool :=
  match ts with
  | t :: (t' :: _) as r => (t' - t <? FM.debounceDelay) && burst r
  | _ => true
  end.

(** Every event comes more than the delay after the one before. *)
Fixpoint spaced (ts : list Z) : bool :=
  match ts with
  | t :: (t' :: _) as r => (FM.debounceDelay <? t' - t) && spaced r
  | _ => true
  end.

Definition lastOpt (ts : list Z) : option Z :=
  match List.rev ts with
  | [] => None
  | t :: _ => Some t
  end.

(** The invocations that the gaps between consecutive events decide:
    one after every event that the next one does not pre-empt. *)
Fixpoint settled (ts : list Z) : list Z :=
  match ts with
  | t :: (t' :: _) as r =>
      (if t + FM.debounceDelay <=? t' then [t + FM.debounceDelay] else []) ++ settled r
  | _ => []
  end%list.

(** The instants at which the callback is expected. *)
Definition expected (ts : list Z) : list Z :=
  (settled ts ++ match lastOpt ts with
                 | Some t => [t + FM.debounceDelay]
                 | None => []
                 end)%list.

(** A watcher started on an idle loop. *)
Definition watching (path : string) (callback : nat) (start : Z) : FM.Loop :=
  FM.watchScheduleFolder (Some callback) (FM.idle start (FM.new path)).

End Debounce.

Import Debounce.

(** The state of the loop once the events up to instant [T] are
    delivered, [qs] being the instants of the qualifying ones. *)
Definition debounced (l : FM.Loop) (qs : list Z) (T : Z) : Prop :=
  FM.fileWatcher (FM.self l) = true
  /\ (exists cb, FM.changeCallback (FM.self l) = Some cb)
  /\ FM.clock l = T
  /\ match lastOpt qs with
     | None => FM.timers l = [] /\ FM.invoked l = []
     | Some t =>
         t <= T
         /\ ((T < t + FM.debounceDelay
              /\ (exists id, FM.debounceTimer (FM.self l) = Some id
                             /\ FM.timers l
                                = [{| FM.timerId := id; FM.due := t + FM.debounceDelay |}])
              /\ FM.invoked l = settled qs)
             \/ (t + FM.debounceDelay <= T
                 /\ FM.timers l = []
                 /\ FM.invoked l = (settled qs ++ [t + FM.debounceDelay])%list))
     end.

Module DebounceExample.

(** Three writes of [schedule.yaml] within 120 ms, with an editor's
    swap file in between. *)
Definition oneSave : list (Z * option string) :=
  [(1000, Some "schedule.yaml"); (1040, Some ".schedule.yaml.swp");
   (1080, Some "schedule.yaml"); (1120, Some "schedule.yaml")].

(** Two saves a second apart. *)
Definition twoSaves : list (Z * option string) :=
  [(1000, Some "schedule.yaml"); (2000, Some "schedule.yml")].

End DebounceExample.

Module TimeText.

(** A time of day in 24-hour notation, both fields on two digits. *)
Definition clockText (h m : Z) : string := twoDigits h ++ ":" ++ twoDigits m.

(** The hour of the 12-hour clock: 0 and 12 both show as 12. *)
Definition hour12 (h : Z) : Z := if h mod 12 =? 0 then 12 else h mod 12.

Definition periodOf (h : Z) : string := if h <? 12 then "AM" else "PM".

(** The same time in 12-hour notation: ["H:MM AM"] or ["H:MM PM"]. *)
Definition twelveHourText (h m : Z) : string :=
  unpadded (hour12 h) ++ ":" ++ twoDigits m ++ " " ++ periodOf h.

Definition rangeZ (n : nat) : list Z := List.map Z.of_nat (seq 0 n).

Definition returnsText (c : completion string) (expected : string) : bool :=
  match c with
  | Return r => String.eqb r expected
  | Throw _ => false
  end.

Definition returnsNumber (c : completion number) (expected : Z) : bool :=
  match c with
  | Return (Num z) => z =? expected
  | _ => false
  end.

(** The conversions of one time of day, checked by evaluation. *)
Definition conversionsAgree (h m : Z) : bool :=
  String.eqb (formatTo12Hour (clockText h m)) (twelveHourText h m)
  && returnsText (normalizeTo24Hour (twelveHourText h m)) (clockText h m)
  && returnsNumber (timeToMinutes (clockText h m)) (h * 60 + m)
  && returnsNumber (timeToMinutes (twelveHourText h m)) (h * 60 + m).

(** Digits and colons only: the alphabet of a normalized time. *)
Definition isClockChar (c : ascii) : bool := isDigit c || Ascii.eqb c ":".

End TimeText.

Import TimeText.

Module MenuShape.

Definition separatorItem : Main.MenuItem :=
  {| Main.label := None; Main.type := "separator"; Main.enabled := None;
     Main.click := None |}.

Definition quitItem : Main.MenuItem :=
  {| Main.label := Some "Quit"; Main.type := "normal"; Main.enabled := None;
     Main.click := Some Main.QuitApp |}.

Definition nextUpHeader : Main.MenuItem :=
  {| Main.label := Some "Next Up:"; Main.type := "normal";
     Main.enabled := Some false; Main.click := None |}.

(** A plain entry: of type ['normal'], with a non-empty label and no
    click handler. *)
Definition isTextItem (item : Main.MenuItem) : Prop :=
  Main.type item = "normal" /\ Main.click item = None
  /\ exists text, Main.label item = Some text /\ text <> EmptyString.

End MenuShape.

Import MenuShape.

Module MoreExamples.

(** A parser that knows one document: Monday has the block A1 and the
    configuration sets only the idle text. *)
Definition parseSample (text : string) : completion (Value Document) :=
  if String.eqb text "sample"
  then Return (Object
                 {| dataSchedule :=
                      Object (<["Monday" := [Examples.block "A1" "9:00 AM" "10:05 AM"]]> ∅);
                    dataConfig :=
                      Object {| rawCountdownThreshold := None;
                                rawNoClassText := Some "free" |} |})
  else Throw (Error "unexpected token").

Definition file (n : string) (t : Z) : FM.File :=
  {| FM.name := n; FM.mtimeMs := t; FM.content := Return "sample" |}.

(** Two schedule files saved at the same instant, after an older one. *)
Definition tied : FM.FileSystem :=
  {| FM.folder := Some [file "old.yaml" 100; file "a.yaml" 200; file "b.yml" 200];
     FM.mkdirFails := false |}.

(** An instance that has loaded nothing yet. *)
Definition blank : ScheduleManager.t :=
  {| schedule := None; config := None; fileManager := Examples.manager |}.

Definition missingFolder : FM.FileSystem :=
  {| FM.folder := None; FM.mkdirFails := false |}.

End MoreExamples.

(* ===================================================================== *)
(** ** Properties                                                        *)
(* ===================================================================== *)

(** *** The countdown text *)

Lemma padStart_twoDigits (n : Z) :
  0 <= n < 100 -> padStart 2 "0" (String_ (Num n)) = twoDigits n.
Proof.
  intros Hn.
  assert (Hk : exists k : nat, (k < 100)%nat /\ n = Z.of_nat k).
  { exists (Z.to_nat n). split; lia. }
  destruct Hk as (k & Hk & ->). clear Hn.
  do 100 (destruct k as [|k]; [vm_compute; reflexivity|]).
  lia.
Qed.

Lemma countdown_text_spec (s : Z) :
  ScheduleManager.remainingInClassText (Num s) = CountdownFormatter s.
Proof.
  unfold ScheduleManager.remainingInClassText, CountdownFormatter.
  cbn [le floor_div rem gt lt].
  destruct (s <=? 0) eqn:Hs; [reflexivity|].
  apply Z.leb_gt in Hs.
  change (3600 =? 0) with false. change (60 =? 0) with false.
  cbn [floor_div rem].
  change (60 =? 0) with false. cbn iota.
  rewrite !Z.rem_mod_nonneg by lia.
  assert (Hm : 0 <= s mod 3600 / 60 < 100).
  { pose proof (Z.mod_pos_bound s 3600 ltac:(lia)).
    split; [apply Z.div_pos; lia|].
    apply Z.div_lt_upper_bound; lia. }
  assert (Hsec : 0 <= s mod 60 < 100).
  { pose proof (Z.mod_pos_bound s 60 ltac:(lia)). lia. }
  rewrite !padStart_twoDigits by assumption.
  reflexivity.
Qed.

Lemma unpadded_starts_with_digit (n : Z) :
  0 <= n -> exists c r, unpadded n = String c r /\ isDigit c = true.
Proof.
  intros Hn. unfold unpadded. destruct n as [|p|p]; [| |lia].
  - exists "0"%char, EmptyString. split; reflexivity.
  - cbn [Z.to_int NilZero.string_of_int].
    destruct (Pos.to_uint p); cbn; eauto.
Qed.

(** C3. The countdown text computed at the end of
    [getTimeRemainingInClass] and of [getTimeUntilNextClass] is, for every
    integer number of remaining seconds [s], the text [CountdownFormatter s]:
    exactly ["0:00:00"] when [s <= 0]; otherwise, with [s] split into hours,
    minutes and seconds, ["H:MM:SS"] when the hours are positive and ["M:SS"]
    when they are zero, the leading field unpadded and the others padded
    with a zero to two digits.  Both methods compute the same text, and the
    text always starts with a digit: no negative duration is shown. *)
Theorem countdown_format_both (s : Z) :
  ScheduleManager.remainingInClassText (Num s) = CountdownFormatter s
  /\ ScheduleManager.untilNextClassText (Num s) = CountdownFormatter s
  /\ (if s <=? 0
      then CountdownFormatter s = "0:00:00"
      else
        let h := s / 3600 in
        let m := (s - 3600 * h) / 60 in
        let sec := s - 3600 * h - 60 * m in
        0 <= m < 60 /\ 0 <= sec < 60
        /\ CountdownFormatter s =
             if h =? 0
             then unpadded m ++ ":" ++ twoDigits sec
             else unpadded h ++ ":" ++ twoDigits m ++ ":" ++ twoDigits sec)
  /\ (exists c r, CountdownFormatter s = String c r /\ isDigit c = true).
Proof.
  split; [apply countdown_text_spec|].
  split; [apply countdown_text_spec|].
  split.
  2:{ unfold CountdownFormatter. destruct (s <=? 0) eqn:Hs.
      - exists "0"%char, ":00:00". split; reflexivity.
      - apply Z.leb_gt in Hs. cbv zeta.
        assert (Hh : 0 <= s / 3600) by (apply Z.div_pos; lia).
        assert (Hm : 0 <= s mod 3600 / 60).
        { apply Z.div_pos; [|lia]. apply Z.mod_pos_bound. lia. }
        destruct (0 <? s / 3600).
        + destruct (unpadded_starts_with_digit _ Hh) as (c & r & -> & Hc).
          eexists c, _. split; [reflexivity | exact Hc].
        + destruct (unpadded_starts_with_digit _ Hm) as (c & r & -> & Hc).
          eexists c, _. split; [reflexivity | exact Hc]. }
  unfold CountdownFormatter.
  destruct (s <=? 0) eqn:Hs; [reflexivity|].
  apply Z.leb_gt in Hs. cbv zeta.
  assert (H1 : s - 3600 * (s / 3600) = s mod 3600) by (rewrite Z.mod_eq; lia).
  rewrite H1.
  assert (H2 : s mod 3600 - 60 * (s mod 3600 / 60) = s mod 60).
  { rewrite <- Z.mod_eq by lia.
    apply Z.mod_mod_divide. exists 60. reflexivity. }
  rewrite H2.
  pose proof (Z.mod_pos_bound s 3600 ltac:(lia)).
  pose proof (Z.mod_pos_bound s 60 ltac:(lia)).
  split; [split; [apply Z.div_pos; lia | apply Z.div_lt_upper_bound; lia]|].
  split; [lia|].
  assert (Hh : 0 <= s / 3600) by (apply Z.div_pos; lia).
  destruct (0 <? s / 3600) eqn:E1, (s / 3600 =? 0) eqn:E2; try reflexivity; lia.
Qed.

(** *** Which clock the engine reads *)

Lemma getTodaySchedule_weekday (this : ScheduleManager.t) (now1 now2 : Date) :
  getDay now1 = getDay now2 ->
  getTodaySchedule this now1 = getTodaySchedule this now2.
Proof.
  intros H. unfold getTodaySchedule, getDayName. rewrite H. reflexivity.
Qed.

(** C6, as stated, fails: the same document and the same moment argument
    give two different texts when the wall clock read by
    [getTodaySchedule] stands on two different weekdays. *)
Lemma getDisplayTime_reads_the_clock :
  getDisplayTime Examples.mondayOnly (Examples.moment 1 8 0 0) (Examples.moment 1 9 30 0)
  = Return "Done In: 35:00"
  /\ getDisplayTime Examples.mondayOnly (Examples.moment 2 8 0 0) (Examples.moment 1 9 30 0)
     = Return ":)"
  /\ getDisplayTime Examples.mondayOnly (Examples.moment 1 8 0 0) (Examples.moment 1 9 30 0)
     <> getDisplayTime Examples.mondayOnly (Examples.moment 2 8 0 0) (Examples.moment 1 9 30 0).
Proof.
  repeat split; try (vm_compute; reflexivity).
  vm_compute. discriminate.
Qed.

(** C6, amended.  For a fixed instance (document and configuration) and a
    fixed weekday of the wall clock, [getDisplayTime] is a function of its
    moment argument alone: two calls with equal moments give the same
    completion, whatever else the clock reads, and nothing is remembered
    from one call to the next.  The weekday is read from the wall clock by
    [getTodaySchedule], not from the moment. *)
Theorem getDisplayTime_two_runs (this : ScheduleManager.t) (now1 now2 m1 m2 : Date) :
  getDay now1 = getDay now2 ->
  m1 = m2 ->
  getDisplayTime this now1 m1 = getDisplayTime this now2 m2.
Proof.
  intros Hday <-.
  unfold getDisplayTime, getTimeRemainingInClass, getTimeUntilNextClass,
    getMinutesUntilNextClass, getCurrentClass, getNextClass.
  rewrite (getTodaySchedule_weekday this now1 now2 Hday).
  reflexivity.
Qed.

Lemma getDisplayTime_two_runs_witness :
  getDisplayTime Examples.mondayOnly (Examples.moment 1 8 0 0) (Examples.moment 1 9 30 0)
  = getDisplayTime Examples.mondayOnly (Examples.moment 1 23 59 59) (Examples.moment 1 9 30 0).
Proof.
  apply (getDisplayTime_two_runs Examples.mondayOnly
           (Examples.moment 1 8 0 0) (Examples.moment 1 23 59 59)
           (Examples.moment 1 9 30 0) (Examples.moment 1 9 30 0));
    reflexivity.
Defined.

(** *** Loading and reloading *)

Lemma ensure_keeps_existing_folder (fm : ScheduleFileManager.t)
  (fsys : ScheduleFileManager.FileSystem) :
  ScheduleFileManager.getMostRecentScheduleFile fm
    (snd (ScheduleFileManager.ensureScheduleFolderExists fm fsys))
  = ScheduleFileManager.getMostRecentScheduleFile fm fsys.
Proof.
  unfold ScheduleFileManager.ensureScheduleFolderExists,
    ScheduleFileManager.getMostRecentScheduleFile.
  destruct fsys as [[files|] fails]; cbn; [reflexivity|].
  destruct fails; reflexivity.
Qed.

Lemma ensure_keeps_files (fm : ScheduleFileManager.t)
  (fsys : ScheduleFileManager.FileSystem) (path : string) :
  ScheduleFileManager.folder fsys <> None ->
  snd (ScheduleFileManager.ensureScheduleFolderExists fm fsys) = fsys.
Proof.
  unfold ScheduleFileManager.ensureScheduleFolderExists.
  destruct fsys as [[files|] fails]; cbn; [reflexivity | congruence].
Qed.

Ltac step_load := cbv beta iota zeta delta [fst snd].

Lemma loadSchedule_outcome (YAML_parse : string -> completion (Value Document))
  (w : World) :
  match loadSchedule YAML_parse w with
  | (Throw _, w') => fst w' = fst w /\ ~ (exists s c, loadable YAML_parse w s c)
  | (Return _, w') =>
      exists s c, loadable YAML_parse w s c
        /\ schedule (fst w') = Some s
        /\ config (fst w') = Some (withDefaults c)
        /\ fileManager (fst w') = fileManager (fst w)
  end.
Proof.
  destruct w as [this fsys].
  unfold loadSchedule, tryCatch, andThen, ScheduleManager.ensureScheduleFolderExists,
    ScheduleManager.getMostRecentScheduleFile, ScheduleManager.readFileSync,
    lift, throw, setConfig, setSchedule, loadable.
  step_load.
  pose proof (ensure_keeps_existing_folder (fileManager this) fsys) as Hsame.
  pose proof (ensure_keeps_files (fileManager this) fsys) as Hfiles.
  destruct (ScheduleFileManager.ensureScheduleFolderExists (fileManager this) fsys)
    as [ok fsys'] eqn:Hens.
  step_load. cbn [fst snd] in Hsame, Hfiles.
  rewrite Hsame.
  destruct (ScheduleFileManager.getMostRecentScheduleFile (fileManager this) fsys)
    as [path|] eqn:Hpath; step_load.
  2:{ split; [reflexivity|].
      intros Hex; destruct Hex as (s & c & p & t0 & d & H & _). discriminate. }
  assert (Hfs : fsys' = fsys).
  { apply Hfiles; [exact path|].
    unfold ScheduleFileManager.getMostRecentScheduleFile in Hpath.
    destruct (ScheduleFileManager.folder fsys); congruence. }
  subst fsys'.
  destruct (ScheduleFileManager.readFileSync (fileManager this) fsys path)
    as [text|e] eqn:Hread; step_load.
  2:{ split; [reflexivity|].
      intros Hex; destruct Hex as (s & c & p & t0 & d & H1 & H2 & _).
      inversion H1; subst. congruence. }
  destruct (YAML_parse text) as [[| |d]|e] eqn:Hparse; step_load;
    try (split; [reflexivity|];
         intros Hex; destruct Hex as (s & c & p & t0 & d0 & H1 & H2 & H3 & _);
         inversion H1; subst; congruence).
  destruct (dataSchedule d) as [| |s] eqn:Hs; step_load;
    try (split; [reflexivity|];
         intros Hex; destruct Hex as (s0 & c & p & t0 & d0 & H1 & H2 & H3 & H4 & _);
         inversion H1; subst; congruence).
  destruct (dataConfig d) as [| |c] eqn:Hc; step_load;
    try (split; [reflexivity|];
         intros Hex; destruct Hex as (s0 & c0 & p & t0 & d0 & H1 & H2 & H3 & H4 & H5);
         inversion H1; subst; congruence).
  exists s, c. repeat split; try reflexivity.
  exists path, text, d. repeat split; assumption.
Qed.

(** C7. When [loadSchedule] or [reloadSchedule] throws, the instance is
    exactly what it was before the call: neither [this.schedule] nor
    [this.config] is cleared or overwritten.  The call throws in every case
    but one: a candidate file is found, it is read, it parses to an object,
    and both its [schedule] and its [config] are objects; only then are the
    two fields replaced, together. *)
Theorem failed_load_keeps_state
  (YAML_parse : string -> completion (Value Document)) (w : World) :
  (forall e w', loadSchedule YAML_parse w = (Throw e, w') ->
     fst w' = fst w /\ ~ (exists s c, loadable YAML_parse w s c))
  /\ (forall e w', reloadSchedule YAML_parse w = (Throw e, w') ->
        fst w' = fst w /\ ~ (exists s c, loadable YAML_parse w s c))
  /\ (forall r w', loadSchedule YAML_parse w = (Return r, w') ->
        exists s c, loadable YAML_parse w s c
          /\ schedule (fst w') = Some s
          /\ config (fst w') = Some (withDefaults c)).
Proof.
  pose proof (loadSchedule_outcome YAML_parse w) as H.
  unfold reloadSchedule.
  split; [|split]; intros x w' Heq; rewrite Heq in H.
  - exact H.
  - exact H.
  - destruct H as (s & c & Hl & Hs & Hc & _). exists s, c. auto.
Qed.

Lemma failed_load_keeps_state_witness :
  loadSchedule LoadExample.parseNothing (Examples.mondayOnly, LoadExample.broken)
  = (Throw (Error "Failed to load schedule: bad indentation of a mapping entry"),
     (Examples.mondayOnly, LoadExample.broken))
  /\ fst (Examples.mondayOnly, LoadExample.broken) = Examples.mondayOnly.
Proof.
  assert (E : loadSchedule LoadExample.parseNothing (Examples.mondayOnly, LoadExample.broken)
              = (Throw (Error "Failed to load schedule: bad indentation of a mapping entry"),
                 (Examples.mondayOnly, LoadExample.broken)))
    by (vm_compute; reflexivity).
  split; [exact E|].
  exact (proj1 (proj1 (failed_load_keeps_state LoadExample.parseNothing
                         (Examples.mondayOnly, LoadExample.broken)) _ _ E)).
Defined.

(** *** The most recent schedule file *)



(** C9 at a folder the code can meet.  The folder holds one candidate,
    [schedule.yaml], whose modification time is [0] (the epoch).  It is the
    candidate with the greatest modification time, yet
    [getMostRecentScheduleFile] answers [null] and [hasScheduleFile]
    answers [false]: the scan starts from [mostRecentTime = 0] and keeps a
    file only when its time is strictly greater. *)
Theorem epoch_dated_candidate_is_missed :
  candidate {| FM.name := "schedule.yaml"; FM.mtimeMs := 0;
               FM.content := Return "config: {}" |} = true
  /\ FM.getMostRecentScheduleFile Examples.manager EpochExample.epochFolder = None
  /\ FM.hasScheduleFile Examples.manager EpochExample.epochFolder = false.
Proof. repeat split; vm_compute; reflexivity. Qed.

(** *** Scanning today's list *)

(** [find] against the list function of the same name: [q] is the value
    of the predicate where it is evaluated, [ok] tells where it can be. *)
Lemma find_scan {A : Type} (p : A -> completion bool) (q ok : A -> bool)
  (l : list A) :
  (forall x v, p x = Return v -> q x = v /\ ok x = true) ->
  (forall x e, p x = Throw e -> ok x = false) ->
  match ScheduleManager.find p l with
  | Return r => r = List.find q l
  | Throw _ => Exists (fun x => ok x = false) l
  end
  /\ (Forall (fun x => ok x = true) l ->
      ScheduleManager.find p l = Return (List.find q l)).
Proof.
  intros Hret Hthrow.
  induction l as [|x l [IH1 IH2]]; cbn [ScheduleManager.find List.find bind].
  - split; [reflexivity|]. intros _. reflexivity.
  - destruct (p x) as [v|e] eqn:Hp; cbn [bind].
    + destruct (Hret x v Hp) as [Hq Hok]. rewrite Hq.
      destruct v.
      * split; [reflexivity|]. intros _. reflexivity.
      * split.
        -- destruct (ScheduleManager.find p l); [exact IH1|].
           apply Exists_cons_tl. exact IH1.
        -- intros Hall. apply IH2. inversion Hall; assumption.
    + pose proof (Hthrow x e Hp) as Hok. split.
      * apply Exists_cons_hd. exact Hok.
      * intros Hall. inversion Hall; subst. congruence.
Qed.

Lemma find_some_holds {A : Type} (p : A -> completion bool) (l : list A) (x : A) :
  ScheduleManager.find p l = Return (Some x) -> p x = Return true.
Proof.
  induction l as [|y l IH]; cbn [ScheduleManager.find]; intros H; [discriminate|].
  destruct (p y) as [v|e] eqn:Hp; cbn [bind] in H; [|discriminate].
  destruct v; [|exact (IH H)].
  injection H as <-. exact Hp.
Qed.

Lemma getCurrentClass_unfold (this : ScheduleManager.t) (now m : Date)
  (sched : gmap string (list Block)) :
  schedule this = Some sched ->
  getCurrentClass this now m
  = ScheduleManager.find (isCurrentAt (Num (minutesOf m))) (todayOf sched now).
Proof.
  intros H. unfold getCurrentClass, getTodaySchedule. rewrite H. reflexivity.
Qed.

Lemma getNextClass_unfold (this : ScheduleManager.t) (now m : Date)
  (sched : gmap string (list Block)) :
  schedule this = Some sched ->
  getNextClass this now m
  = ScheduleManager.find (isUpcomingAt (Num (minutesOf m))) (todayOf sched now).
Proof.
  intros H. unfold getNextClass, getTodaySchedule. rewrite H. reflexivity.
Qed.

Lemma isCurrentAt_return (m : Z) (cls : Block) (v : bool) :
  isCurrentAt (Num m) cls = Return v -> covers m cls = v /\ timesParse cls = true.
Proof.
  unfold isCurrentAt, covers, timesParse.
  destruct (timeToMinutes (startTime cls)); cbn [bind]; [|discriminate].
  destruct (timeToMinutes (endTime cls)); cbn [bind]; [|discriminate].
  intros [= <-]. split; reflexivity.
Qed.

Lemma isCurrentAt_throw (m : Z) (cls : Block) (e : exn) :
  isCurrentAt (Num m) cls = Throw e -> timesParse cls = false.
Proof.
  unfold isCurrentAt, timesParse.
  destruct (timeToMinutes (startTime cls)); cbn [bind]; [|reflexivity].
  destruct (timeToMinutes (endTime cls)); cbn [bind]; [discriminate|reflexivity].
Qed.

Lemma isUpcomingAt_return (m : Z) (cls : Block) (v : bool) :
  isUpcomingAt (Num m) cls = Return v -> startsAfter m cls = v /\ startParses cls = true.
Proof.
  unfold isUpcomingAt, startsAfter, startParses.
  destruct (timeToMinutes (startTime cls)); cbn [bind]; [|discriminate].
  intros [= <-]. split; reflexivity.
Qed.

Lemma isUpcomingAt_throw (m : Z) (cls : Block) (e : exn) :
  isUpcomingAt (Num m) cls = Throw e -> startParses cls = false.
Proof.
  unfold isUpcomingAt, startParses.
  destruct (timeToMinutes (startTime cls)); cbn [bind]; [discriminate|reflexivity].
Qed.

(** C1, as stated, fails.  Monday's list holds a block whose [startTime]
    is ["noon pm"] and then the block A1, 9:00 AM to 10:05 AM.  At 9:30 the
    first element whose interval satisfies [start <= m < end] is A1, but
    [getCurrentClass] throws: [normalizeTo24Hour] rejects ["noon pm"]
    before the scan reaches A1. *)
Lemma getCurrentClass_throws_on_bad_time :
  List.find (covers 570)
    [Examples.block "Lunch" "noon pm" "1:00 PM"; Examples.block "A1" "9:00 AM" "10:05 AM"]
  = Some (Examples.block "A1" "9:00 AM" "10:05 AM")
  /\ getCurrentClass ScanExamples.withBadTime ScanExamples.monday (Examples.moment 1 9 30 0)
     = Throw (Error "Invalid 12-hour time format: noon pm")
  /\ getCurrentClass ScanExamples.withBadTime ScanExamples.monday (Examples.moment 1 9 30 0)
     <> Return (Some (Examples.block "A1" "9:00 AM" "10:05 AM")).
Proof.
  split; [vm_compute; reflexivity|].
  split; [vm_compute; reflexivity|].
  vm_compute. discriminate.
Qed.

(** C1, amended.  On a loaded instance, with [today] the list of the
    weekday the wall clock shows and [m] the minutes of the moment:
    - whenever [getCurrentClass] returns, it returns the first element of
      [today] whose interval satisfies [start <= m < end], and none when no
      element satisfies it;
    - it does return whenever every [startTime] and [endTime] of [today]
      is accepted by [normalizeTo24Hour];
    - when it throws, some time string of [today] is rejected;
    - a block whose end is [m] does not satisfy the test and is not the
      block returned; a block whose start is [m] and whose end is later
      satisfies it, and is the block returned when it heads the list. *)
Theorem getCurrentClass_first_match (this : ScheduleManager.t) (now m : Date)
  (sched : gmap string (list Block)) :
  schedule this = Some sched ->
  (forall r, getCurrentClass this now m = Return r ->
     r = List.find (covers (minutesOf m)) (todayOf sched now))
  /\ (Forall (fun cls => timesParse cls = true) (todayOf sched now) ->
      getCurrentClass this now m
      = Return (List.find (covers (minutesOf m)) (todayOf sched now)))
  /\ (forall e, getCurrentClass this now m = Throw e ->
      Exists (fun cls => timesParse cls = false) (todayOf sched now))
  /\ (forall cls s e,
        timeToMinutes (startTime cls) = Return (Num s) ->
        timeToMinutes (endTime cls) = Return (Num e) ->
        (minutesOf m = e ->
         covers (minutesOf m) cls = false
         /\ getCurrentClass this now m <> Return (Some cls))
        /\ (minutesOf m = s -> s < e ->
            covers (minutesOf m) cls = true
            /\ forall rest, todayOf sched now = cls :: rest ->
                  getCurrentClass this now m = Return (Some cls))).
Proof.
  intros Hs. rewrite (getCurrentClass_unfold this now m sched Hs).
  destruct (find_scan (isCurrentAt (Num (minutesOf m))) (covers (minutesOf m))
              timesParse (todayOf sched now)
              (isCurrentAt_return (minutesOf m)) (isCurrentAt_throw (minutesOf m)))
    as [H1 H2].
  split; [|split; [exact H2|split]].
  - intros r Hr. rewrite Hr in H1. exact H1.
  - intros e He. rewrite He in H1. exact H1.
  - intros cls s e Hst Hen.
    assert (Hend : minutesOf m = e -> covers (minutesOf m) cls = false).
    { intros ->. unfold covers. rewrite Hst, Hen. cbn [ge lt le].
      rewrite Z.ltb_irrefl. apply andb_false_r. }
    assert (Hstart : minutesOf m = s -> s < e -> covers (minutesOf m) cls = true).
    { intros -> Hlt. unfold covers. rewrite Hst, Hen. cbn [ge lt le].
      rewrite Z.leb_refl. cbn. apply Z.ltb_lt. exact Hlt. }
    split.
    + intros He. split; [exact (Hend He)|].
      intros Hret. apply find_some_holds in Hret.
      apply isCurrentAt_return in Hret. rewrite (Hend He) in Hret.
      destruct Hret as [Hret _]. discriminate Hret.
    + intros Hm Hlt. split; [exact (Hstart Hm Hlt)|].
      intros rest Htoday. rewrite Htoday. cbn [ScheduleManager.find].
      specialize (Hstart Hm Hlt). unfold covers in Hstart.
      unfold isCurrentAt. rewrite Hst, Hen in *. cbn [bind].
      rewrite Hstart. reflexivity.
Qed.

Lemma getCurrentClass_first_match_witness :
  getCurrentClass ScanExamples.regular ScanExamples.monday (Examples.moment 1 10 5 0)
  = Return None
  /\ getCurrentClass ScanExamples.regular ScanExamples.monday (Examples.moment 1 10 10 0)
     = Return (Some (Examples.block "B2" "10:10 AM" "11:15 AM")).
Proof.
  split.
  - apply (proj1 (proj2 (getCurrentClass_first_match ScanExamples.regular
                           ScanExamples.monday (Examples.moment 1 10 5 0) _ eq_refl))).
    repeat constructor.
  - apply (proj1 (proj2 (getCurrentClass_first_match ScanExamples.regular
                           ScanExamples.monday (Examples.moment 1 10 10 0) _ eq_refl))).
    repeat constructor.
Defined.

Lemma getNextClass_first_match_aux (this : ScheduleManager.t) (now m : Date)
  (sched : gmap string (list Block)) :
  schedule this = Some sched ->
  (forall r, getNextClass this now m = Return r ->
     r = List.find (startsAfter (minutesOf m)) (todayOf sched now))
  /\ (Forall (fun cls => startParses cls = true) (todayOf sched now) ->
      getNextClass this now m
      = Return (List.find (startsAfter (minutesOf m)) (todayOf sched now)))
  /\ (forall e, getNextClass this now m = Throw e ->
      Exists (fun cls => startParses cls = false) (todayOf sched now)).
Proof.
  intros Hs. rewrite (getNextClass_unfold this now m sched Hs).
  destruct (find_scan (isUpcomingAt (Num (minutesOf m))) (startsAfter (minutesOf m))
              startParses (todayOf sched now)
              (isUpcomingAt_return (minutesOf m)) (isUpcomingAt_throw (minutesOf m)))
    as [H1 H2].
  split; [|split; [exact H2|]].
  - intros r Hr. rewrite Hr in H1. exact H1.
  - intros e He. rewrite He in H1. exact H1.
Qed.

(** C4, as stated, fails.  With the same Monday list, at 8:00 the first
    block whose start is later than the moment is A1 (the start of the
    first block has no minutes), but [getNextClass] throws on ["noon pm"]. *)
Lemma getNextClass_throws_on_bad_time :
  List.find (startsAfter 480)
    [Examples.block "Lunch" "noon pm" "1:00 PM"; Examples.block "A1" "9:00 AM" "10:05 AM"]
  = Some (Examples.block "A1" "9:00 AM" "10:05 AM")
  /\ getNextClass ScanExamples.withBadTime ScanExamples.monday (Examples.moment 1 8 0 0)
     = Throw (Error "Invalid 12-hour time format: noon pm")
  /\ getNextClass ScanExamples.withBadTime ScanExamples.monday (Examples.moment 1 8 0 0)
     <> Return (Some (Examples.block "A1" "9:00 AM" "10:05 AM")).
Proof.
  split; [vm_compute; reflexivity|].
  split; [vm_compute; reflexivity|].
  vm_compute. discriminate.
Qed.

(** C4, amended.  On a loaded instance, with [today] the list of the
    weekday the wall clock shows and [m] the minutes of the moment:
    - whenever [getNextClass] returns, it returns the first element of
      [today], in list order, whose start minute is strictly greater than
      [m], and none when no element qualifies;
    - it does return whenever every [startTime] of [today] is accepted by
      [normalizeTo24Hour]; when it throws, some [startTime] is rejected;
    - the scan takes the first match, not the earliest start: on a list
      that is not sorted by time the block returned can start later than
      another block that also starts after [m]. *)
Theorem getNextClass_first_match (this : ScheduleManager.t) (now m : Date)
  (sched : gmap string (list Block)) :
  schedule this = Some sched ->
  (forall r, getNextClass this now m = Return r ->
     r = List.find (startsAfter (minutesOf m)) (todayOf sched now))
  /\ (Forall (fun cls => startParses cls = true) (todayOf sched now) ->
      getNextClass this now m
      = Return (List.find (startsAfter (minutesOf m)) (todayOf sched now)))
  /\ (forall e, getNextClass this now m = Throw e ->
      Exists (fun cls => startParses cls = false) (todayOf sched now))
  /\ (exists (unsorted : ScheduleManager.t) (at8 : Date) (late early : Block),
        getNextClass unsorted now at8 = Return (Some late)
        /\ schedule unsorted = Some (<[getDayName now := [late; early]]> ∅)
        /\ timeToMinutes (startTime late) = Return (Num 780)
        /\ timeToMinutes (startTime early) = Return (Num 540)
        /\ minutesOf at8 = 480).
Proof.
  intros Hs.
  destruct (getNextClass_first_match_aux this now m sched Hs) as (H1 & H2 & H3).
  split; [exact H1|split; [exact H2|split; [exact H3|]]].
  exists (Examples.loaded
              (<[getDayName now := [Examples.block "PM" "1:00 PM" "2:00 PM";
                                    Examples.block "AM" "9:00 AM" "10:00 AM"]]> ∅)),
      (Examples.moment 1 8 0 0),
      (Examples.block "PM" "1:00 PM" "2:00 PM"),
      (Examples.block "AM" "9:00 AM" "10:00 AM").
  split; [|repeat split; vm_compute; reflexivity].
  unfold getNextClass, getTodaySchedule, Examples.loaded. cbn [schedule bind].
  rewrite lookup_insert_eq. vm_compute. reflexivity.
Qed.

Lemma getNextClass_first_match_witness :
  getNextClass ScanExamples.regular ScanExamples.monday (Examples.moment 1 9 0 0)
  = Return (Some (Examples.block "B2" "10:10 AM" "11:15 AM"))
  /\ getNextClass ScanExamples.unsorted ScanExamples.monday (Examples.moment 1 8 0 0)
     = Return (Some (Examples.block "PM" "1:00 PM" "2:00 PM")).
Proof.
  split.
  - apply (proj1 (proj2 (getNextClass_first_match ScanExamples.regular
                           ScanExamples.monday (Examples.moment 1 9 0 0) _ eq_refl))).
    repeat constructor.
  - apply (proj1 (proj2 (getNextClass_first_match ScanExamples.unsorted
                           ScanExamples.monday (Examples.moment 1 8 0 0) _ eq_refl))).
    repeat constructor.
Defined.

(** *** The display text *)







(** *** Time strings in 12-hour notation *)

Lemma digit_not_white (c : ascii) : isDigit c = true -> isWhiteSpace c = false.
Proof.
  destruct c as [[] [] [] [] [] [] [] []]; vm_compute; congruence.
Qed.

Lemma period_start_not_white (c : ascii) :
  matchesLetter "a" c || matchesLetter "p" c = true -> isWhiteSpace c = false.
Proof.
  destruct c as [[] [] [] [] [] [] [] []]; vm_compute; congruence.
Qed.

Lemma period_end_not_white (c : ascii) :
  matchesLetter "m" c = true -> isWhiteSpace c = false.
Proof.
  destruct c as [[] [] [] [] [] [] [] []]; vm_compute; congruence.
Qed.

Lemma append_cons (c : ascii) (s u : string) : String c s ++ u = String c (s ++ u).
Proof. reflexivity. Qed.

Lemma append_nil (u : string) : EmptyString ++ u = u.
Proof. reflexivity. Qed.

Lemma append_assoc (s u v : string) : (s ++ u) ++ v = s ++ u ++ v.
Proof.
  induction s as [|c s IH]; [reflexivity|].
  rewrite !append_cons, IH. reflexivity.
Qed.

Ltac norm_append := repeat (rewrite append_cons || rewrite append_nil).

Ltac norm_append_in H := repeat (rewrite append_cons in H || rewrite append_nil in H).

Lemma matchTime_unfold (s : string) :
  matchTime s
  = match timeHere s with
    | Some m => Some m
    | None => match s with
              | EmptyString => None
              | String _ r => matchTime r
              end
    end.
Proof. destruct s; reflexivity. Qed.

Lemma hasPeriodMarker_contains (s : string) :
  hasPeriodMarker s = true <-> containsPeriod s.
Proof.
  split.
  - induction s as [|a r IH]; cbn [hasPeriodMarker]; [discriminate|].
    destruct r as [|b r']; [discriminate|].
    intros H. apply orb_prop in H. destruct H as [H|H].
    + exists EmptyString, (String a (String b EmptyString)), r'.
      split; [reflexivity | exact H].
    + destruct (IH H) as (pre & g & post & Heq & Hg).
      exists (String a pre), g, post. split; [|exact Hg].
      rewrite Heq. reflexivity.
  - intros (pre & g & post & -> & Hg).
    induction pre as [|c pre IH].
    + destruct g as [|a [|b [|? ?]]]; try discriminate.
      norm_append. cbn [hasPeriodMarker isPeriodText] in *. rewrite Hg. reflexivity.
    + norm_append. cbn [hasPeriodMarker].
      destruct (pre ++ g ++ post) as [|b r']; [discriminate IH|].
      rewrite IH. apply orb_true_r.
Qed.

Lemma skipWhiteSpace_spec (s : string) :
  exists ws, allChars isWhiteSpace ws = true /\ s = ws ++ skipWhiteSpace s.
Proof.
  induction s as [|c r (ws & Hws & Heq)].
  - exists EmptyString. split; reflexivity.
  - cbn [skipWhiteSpace]. destruct (isWhiteSpace c) eqn:Hc.
    + exists (String c ws). cbn [allChars]. rewrite Hc, Hws.
      split; [reflexivity|]. norm_append. rewrite <- Heq. reflexivity.
    + exists EmptyString. split; reflexivity.
Qed.

Lemma skipWhiteSpace_app (ws rest : string) :
  allChars isWhiteSpace ws = true ->
  skipWhiteSpace rest = rest ->
  skipWhiteSpace (ws ++ rest) = rest.
Proof.
  intros Hws Hrest. induction ws as [|c ws IH]; [exact Hrest|].
  cbn [allChars] in Hws. apply andb_prop in Hws. destruct Hws as [Hc Hws].
  norm_append. cbn [skipWhiteSpace]. rewrite Hc. exact (IH Hws).
Qed.

Lemma periodHere_spec (s g : string) :
  periodHere s = Some g <-> isPeriodText g = true /\ exists post, s = g ++ post.
Proof.
  split.
  - unfold periodHere. destruct s as [|a [|b r]]; try discriminate.
    destruct ((matchesLetter "a" a || matchesLetter "p" a) && matchesLetter "m" b)
      eqn:H; [|discriminate].
    intros [= <-]. cbn [isPeriodText]. split; [exact H|].
    exists r. reflexivity.
  - intros [Hg (post & ->)].
    destruct g as [|a [|b [|? ?]]]; try discriminate.
    norm_append. cbn [periodHere isPeriodText] in *. rewrite Hg. reflexivity.
Qed.

Lemma period_not_skipped (g post : string) :
  isPeriodText g = true -> skipWhiteSpace (g ++ post) = g ++ post.
Proof.
  destruct g as [|a [|b [|? ?]]]; try discriminate.
  norm_append. cbn [isPeriodText skipWhiteSpace]. intros H.
  apply andb_prop in H. destruct H as [H _].
  rewrite (period_start_not_white a H). reflexivity.
Qed.

Lemma minutesAndPeriodHere_spec (s g2 g3 : string) :
  minutesAndPeriodHere s = Some (g2, g3)
  <-> isMinuteText g2 = true /\ isPeriodText g3 = true
      /\ exists ws post, allChars isWhiteSpace ws = true
                         /\ s = ":" ++ g2 ++ ws ++ g3 ++ post.
Proof.
  split.
  - unfold minutesAndPeriodHere.
    destruct s as [|c [|m1 [|m2 r]]]; try discriminate.
    destruct (Ascii.eqb c ":" && isDigit m1 && isDigit m2) eqn:H; [|discriminate].
    destruct (periodHere (skipWhiteSpace r)) as [p|] eqn:Hp; [|discriminate].
    intros [= <- <-].
    apply andb_prop in H. destruct H as [H H2].
    apply andb_prop in H. destruct H as [H0 H1].
    apply Ascii.eqb_eq in H0. subst c.
    apply periodHere_spec in Hp. destruct Hp as [Hp (post & Hpost)].
    destruct (skipWhiteSpace_spec r) as (ws & Hws & Hr).
    split; [unfold isMinuteText; cbn; rewrite H1, H2; reflexivity|].
    split; [exact Hp|].
    exists ws, post. split; [exact Hws|].
    norm_append. rewrite <- Hpost, <- Hr. reflexivity.
  - intros (H2 & H3 & ws & post & Hws & ->).
    unfold isMinuteText in H2. apply andb_prop in H2. destruct H2 as [Hd Hl].
    destruct g2 as [|m1 [|m2 [|? ?]]]; try discriminate.
    cbn [allChars] in Hd. apply andb_prop in Hd. destruct Hd as [H1 Hd].
    apply andb_prop in Hd. destruct Hd as [H2 _].
    norm_append. cbn [minutesAndPeriodHere]. rewrite H1, H2.
    cbn [Ascii.eqb Bool.eqb andb].
    rewrite (skipWhiteSpace_app ws (g3 ++ post) Hws (period_not_skipped g3 post H3)).
    rewrite (proj2 (periodHere_spec (g3 ++ post) g3)); [reflexivity|].
    split; [exact H3 | exists post; reflexivity].
Qed.

Lemma digit_not_sign (c : ascii) :
  isDigit c = true -> Ascii.eqb c "-" = false /\ Ascii.eqb c "+" = false.
Proof.
  destruct c as [[] [] [] [] [] [] [] []]; vm_compute; intuition congruence.
Qed.

Lemma digit_not_colon (c : ascii) : isDigit c = true -> Ascii.eqb c ":" = false.
Proof.
  destruct c as [[] [] [] [] [] [] [] []]; vm_compute; congruence.
Qed.

Lemma minutesAndPeriodHere_digit (d : ascii) (r : string) :
  isDigit d = true -> minutesAndPeriodHere (String d r) = None.
Proof.
  intros Hd. unfold minutesAndPeriodHere.
  destruct r as [|m1 [|m2 r']]; try reflexivity.
  rewrite (digit_not_colon d Hd). reflexivity.
Qed.

Lemma timeHere_spec (s g1 g2 g3 : string) :
  timeHere s = Some (g1, g2, g3) <-> matchesAt s g1 g2 g3.
Proof.
  unfold matchesAt. split.
  - unfold timeHere. destruct s as [|d1 r]; [discriminate|].
    destruct (isDigit d1) eqn:H1; [|discriminate].
    destruct r as [|d2 r2].
    + cbn. discriminate.
    + destruct (isDigit d2) eqn:H2.
      * destruct (minutesAndPeriodHere r2) as [[mm p]|] eqn:Hm.
        -- intros [= <- <- <-].
           apply minutesAndPeriodHere_spec in Hm.
           destruct Hm as (Hmm & Hp & ws & post & Hws & ->).
           split; [unfold isHourText; cbn; rewrite H1, H2; reflexivity|].
           split; [exact Hmm|]. split; [exact Hp|].
           exists ws, post. split; [exact Hws|reflexivity].
        -- rewrite (minutesAndPeriodHere_digit d2 r2 H2). discriminate.
      * destruct (minutesAndPeriodHere (String d2 r2)) as [[mm p]|] eqn:Hm;
          [|discriminate].
        intros [= <- <- <-].
        apply minutesAndPeriodHere_spec in Hm.
        destruct Hm as (Hmm & Hp & ws & post & Hws & ->).
        split; [unfold isHourText; cbn; rewrite H1; reflexivity|].
        split; [exact Hmm|]. split; [exact Hp|].
        exists ws, post. split; [exact Hws|reflexivity].
  - intros (Hh & Hmm & Hp & ws & post & Hws & ->).
    assert (Hm : minutesAndPeriodHere (":" ++ g2 ++ ws ++ g3 ++ post) = Some (g2, g3)).
    { apply minutesAndPeriodHere_spec. repeat split; try assumption.
      exists ws, post. split; [exact Hws | reflexivity]. }
    unfold isHourText in Hh. apply andb_prop in Hh. destruct Hh as [Hd Hl].
    destruct g1 as [|d1 [|d2 [|? ?]]]; try discriminate.
    + cbn [allChars] in Hd. apply andb_prop in Hd. destruct Hd as [H1 _].
      norm_append. norm_append_in Hm. unfold timeHere. rewrite H1.
      change (isDigit ":") with false. cbv iota. rewrite Hm. reflexivity.
    + cbn [allChars] in Hd. apply andb_prop in Hd. destruct Hd as [H1 Hd].
      apply andb_prop in Hd. destruct Hd as [H2 _].
      norm_append. norm_append_in Hm. unfold timeHere. rewrite H1, H2, Hm. reflexivity.
Qed.

Lemma matchTime_sound (s g1 g2 g3 : string) :
  matchTime s = Some (g1, g2, g3) -> occursIn s g1 g2 g3.
Proof.
  induction s as [|c r IH]; rewrite matchTime_unfold.
  - cbn. discriminate.
  - destruct (timeHere (String c r)) as [m|] eqn:Hh.
    + intros [= ->]. exists EmptyString, (String c r).
      split; [reflexivity|]. apply timeHere_spec. exact Hh.
    + intros H. destruct (IH H) as (pre & rest & -> & Hm).
      exists (String c pre), rest. split; [reflexivity | exact Hm].
Qed.

Lemma matchTime_complete (s g1 g2 g3 : string) :
  occursIn s g1 g2 g3 -> matchTime s <> None.
Proof.
  intros (pre & rest & -> & Hm).
  induction pre as [|c pre IH]; rewrite matchTime_unfold.
  - norm_append. rewrite (proj2 (timeHere_spec rest g1 g2 g3) Hm). discriminate.
  - norm_append. destruct (timeHere (String c (pre ++ rest))); [discriminate|].
    exact IH.
Qed.

Lemma digitPrefixValue_digits (g : string) (acc : Z) :
  allChars isDigit g = true ->
  digitPrefixValue (Some acc) g = digitsValue acc g.
Proof.
  revert acc. induction g as [|d g IH]; intros acc Hd; [reflexivity|].
  cbn [allChars] in Hd. apply andb_prop in Hd. destruct Hd as [H1 Hd].
  cbn [digitPrefixValue digitsValue]. rewrite H1. apply IH. exact Hd.
Qed.

Lemma digitsValue_digits (g : string) (acc : Z) :
  allChars isDigit g = true -> exists v, digitsValue acc g = Some v.
Proof.
  revert acc. induction g as [|d g IH]; intros acc Hd; [eauto|].
  cbn [allChars] in Hd. apply andb_prop in Hd. destruct Hd as [H1 Hd].
  cbn [digitsValue]. rewrite H1. apply IH. exact Hd.
Qed.

Lemma parseInt_hour (g : string) :
  isHourText g = true -> parseInt g = Num (hourValue g).
Proof.
  unfold isHourText. intros H. apply andb_prop in H. destruct H as [Hd Hl].
  destruct g as [|d g]; [discriminate|].
  pose proof Hd as Hd'. cbn [allChars] in Hd'. apply andb_prop in Hd'.
  destruct Hd' as [H1 Hg].
  unfold parseInt, hourValue. cbn [trimStart].
  rewrite (digit_not_white d H1).
  rewrite (proj1 (digit_not_sign d H1)), (proj2 (digit_not_sign d H1)).
  cbn [digitPrefixValue digitsValue]. rewrite H1.
  rewrite (digitPrefixValue_digits g _ Hg).
  destruct (digitsValue_digits g (10 * 0 + digitValue d) Hg) as [v Hv].
  unfold default. cbn [from_option]. rewrite Hv. reflexivity.
Qed.

Lemma period_lower (g : string) :
  isPeriodText g = true -> toLowerCase g = "am" \/ toLowerCase g = "pm".
Proof.
  destruct g as [|a [|b [|? ?]]]; try discriminate.
  cbn [isPeriodText toLowerCase]. unfold matchesLetter. intros H.
  apply andb_prop in H. destruct H as [Ha Hb].
  apply Ascii.eqb_eq in Hb. rewrite Hb.
  apply orb_prop in Ha. destruct Ha as [Ha|Ha]; apply Ascii.eqb_eq in Ha; rewrite Ha; auto.
Qed.

(** The hour [normalizeTo24Hour] renders, against [hour24]. *)
Lemma converted_hour (v : Z) (g3 : string) :
  isPeriodText g3 = true ->
  (if String.eqb (toLowerCase g3) "pm" && negb (strict_eq (Num v) (Num 12))
   then add (Num v) (Num 12)
   else if String.eqb (toLowerCase g3) "am" && strict_eq (Num v) (Num 12)
        then Num 0 else Num v)
  = Num (hour24 v (isPM g3)).
Proof.
  intros Hp. unfold isPM, hour24. cbn [strict_eq add].
  destruct (period_lower g3 Hp) as [-> | ->]; cbn [String.eqb Ascii.eqb Bool.eqb andb];
    destruct (Z.eqb_spec v 12) as [-> | _]; reflexivity.
Qed.

Lemma normalizeTo24Hour_matched (timeStr g1 g2 g3 : string) :
  hasPeriodMarker (trim timeStr) = true ->
  matchTime (trim timeStr) = Some (g1, g2, g3) ->
  normalizeTo24Hour timeStr
  = Return (padStart 2 "0" (unpadded (hour24 (hourValue g1) (isPM g3))) ++ ":" ++ g2).
Proof.
  intros Hmark Hmatch. unfold normalizeTo24Hour. rewrite Hmark, Hmatch.
  apply matchTime_sound in Hmatch.
  destruct Hmatch as (pre & rest & _ & Hh & _ & Hp & _).
  rewrite (parseInt_hour g1 Hh), (converted_hour _ g3 Hp). reflexivity.
Qed.

(** C5, as stated, fails: without a period marker the text returned is
    the trimmed input, not the input. *)
Lemma normalizeTo24Hour_trims :
  hasPeriodMarker " 09:00 " = false
  /\ normalizeTo24Hour " 09:00 " = Return "09:00"
  /\ normalizeTo24Hour " 09:00 " <> Return " 09:00 ".
Proof.
  split; [vm_compute; reflexivity|].
  split; [vm_compute; reflexivity|].
  vm_compute. discriminate.
Qed.

(** C5, amended.  With [t] the input trimmed of surrounding white space:
    - if [t] contains no period marker ([am] or [pm], in either case),
      [normalizeTo24Hour] returns [t], with no further validation;
    - if [t] contains a marker but nowhere an hour of one or two digits, a
      colon and a minute of exactly two digits followed, after optional
      white space, by a marker, the call throws
      ["Invalid 12-hour time format: "] followed by the input;
    - if the pattern occurs in [t], the call returns the 24-hour rendering
      of one occurrence: the hour, where 12 AM is 0, 12 PM stays 12 and PM
      otherwise adds 12, padded to two digits, a colon, and the minute;
      when [t] starts with the pattern, that occurrence is the one
      rendered. *)
Theorem normalizeTo24Hour_cases (timeStr : string) :
  (~ containsPeriod (trim timeStr) ->
   normalizeTo24Hour timeStr = Return (trim timeStr))
  /\ (containsPeriod (trim timeStr) ->
      (forall g1 g2 g3, ~ occursIn (trim timeStr) g1 g2 g3) ->
      normalizeTo24Hour timeStr
      = Throw (Error ("Invalid 12-hour time format: " ++ timeStr)))
  /\ (forall h1 h2 h3, occursIn (trim timeStr) h1 h2 h3 ->
      exists g1 g2 g3,
        occursIn (trim timeStr) g1 g2 g3
        /\ normalizeTo24Hour timeStr
           = Return (padStart 2 "0" (unpadded (hour24 (hourValue g1) (isPM g3)))
                     ++ ":" ++ g2))
  /\ (forall g1 g2 g3, matchesAt (trim timeStr) g1 g2 g3 ->
      normalizeTo24Hour timeStr
      = Return (padStart 2 "0" (unpadded (hour24 (hourValue g1) (isPM g3)))
                ++ ":" ++ g2)).
Proof.
  split; [|split; [|split]].
  4:{ intros g1 g2 g3 Hat.
      assert (Hocc : occursIn (trim timeStr) g1 g2 g3).
      { exists EmptyString, (trim timeStr). split; [reflexivity | exact Hat]. }
      apply normalizeTo24Hour_matched.
      - apply hasPeriodMarker_contains.
        destruct Hat as (_ & _ & Hp & ws & post & _ & ->).
        exists (g1 ++ ":" ++ g2 ++ ws), g3, post. split; [|exact Hp].
        rewrite !append_assoc. reflexivity.
      - rewrite matchTime_unfold.
        rewrite (proj2 (timeHere_spec _ g1 g2 g3) Hat). reflexivity. }
  - intros Hno. unfold normalizeTo24Hour.
    destruct (hasPeriodMarker (trim timeStr)) eqn:Hm; [|reflexivity].
    exfalso. apply Hno. apply hasPeriodMarker_contains. exact Hm.
  - intros Hmark Hnone. apply hasPeriodMarker_contains in Hmark.
    unfold normalizeTo24Hour. rewrite Hmark.
    destruct (matchTime (trim timeStr)) as [[[g1 g2] g3]|] eqn:Hmatch; [|reflexivity].
    exfalso. exact (Hnone g1 g2 g3 (matchTime_sound _ _ _ _ Hmatch)).
  - intros h1 h2 h3 Hocc.
    assert (Hmark : hasPeriodMarker (trim timeStr) = true).
    { apply hasPeriodMarker_contains.
      destruct Hocc as (pre & rest & Heq & _ & _ & Hp & ws & post & _ & ->).
      exists (pre ++ h1 ++ ":" ++ h2 ++ ws), h3, post. split; [|exact Hp].
      rewrite Heq. rewrite !append_assoc. reflexivity. }
    destruct (matchTime (trim timeStr)) as [[[g1 g2] g3]|] eqn:Hmatch.
    + exists g1, g2, g3. split; [exact (matchTime_sound _ _ _ _ Hmatch)|].
      exact (normalizeTo24Hour_matched timeStr g1 g2 g3 Hmark Hmatch).
    + exfalso. exact (matchTime_complete _ _ _ _ Hocc Hmatch).
Qed.

Lemma normalizeTo24Hour_cases_witness :
  normalizeTo24Hour " 09:00 " = Return "09:00"
  /\ normalizeTo24Hour "noon pm" = Throw (Error "Invalid 12-hour time format: noon pm")
  /\ normalizeTo24Hour "12:05 am" = Return "00:05"
  /\ normalizeTo24Hour "1:30PM" = Return "13:30".
Proof.
  split; [|split; [|split]].
  - apply (proj1 (normalizeTo24Hour_cases " 09:00 ")).
    intros H. apply hasPeriodMarker_contains in H. vm_compute in H. discriminate H.
  - apply (proj1 (proj2 (normalizeTo24Hour_cases "noon pm"))).
    + apply hasPeriodMarker_contains. vm_compute. reflexivity.
    + intros g1 g2 g3 H. apply matchTime_complete in H. apply H.
      vm_compute. reflexivity.
  - apply (proj2 (proj2 (proj2 (normalizeTo24Hour_cases "12:05 am"))) "12" "05" "am").
    repeat split. exists " ", EmptyString. split; reflexivity.
  - apply (proj2 (proj2 (proj2 (normalizeTo24Hour_cases "1:30PM"))) "1" "30" "PM").
    repeat split. exists EmptyString, EmptyString. split; reflexivity.
Defined.

(** *** Description templates *)












(** *** Trimming *)

Lemma trimStart_clean (s : string) : startsClean (trimStart s) = true.
Proof.
  induction s as [|c r IH]; [reflexivity|].
  cbn [trimStart]. destruct (isWhiteSpace c) eqn:Hc; [exact IH|].
  cbn [startsClean]. rewrite Hc. reflexivity.
Qed.

Lemma trimStart_of_clean (s : string) : startsClean s = true -> trimStart s = s.
Proof.
  destruct s as [|c r]; [reflexivity|].
  cbn [startsClean trimStart]. intros H. apply negb_true_iff in H. rewrite H.
  reflexivity.
Qed.

Lemma trimEnd_clean (s : string) : startsClean s = true -> startsClean (trimEnd s) = true.
Proof.
  destruct s as [|c r]; [reflexivity|].
  cbn [startsClean trimEnd]. intros H.
  destruct (trimEnd r); [|exact H].
  apply negb_true_iff in H. rewrite H. cbn [startsClean]. rewrite H. reflexivity.
Qed.

Lemma trimEnd_idempotent (s : string) : trimEnd (trimEnd s) = trimEnd s.
Proof.
  induction s as [|c r IH]; [reflexivity|].
  cbn [trimEnd]. destruct (trimEnd r) as [|c' r'] eqn:Hr.
  - destruct (isWhiteSpace c) eqn:Hc; [reflexivity|].
    cbn [trimEnd]. rewrite Hc. reflexivity.
  - cbn [trimEnd]. cbn [trimEnd] in IH. rewrite IH. reflexivity.
Qed.

Lemma trim_idempotent (s : string) : trim (trim s) = trim s.
Proof.
  unfold trim.
  rewrite (trimStart_of_clean (trimEnd (trimStart s))).
  - apply trimEnd_idempotent.
  - apply trimEnd_clean. apply trimStart_clean.
Qed.



Lemma timeToMinutes_normalized (timeStr : string) :
  timeToMinutes timeStr
  = match normalizeTo24Hour timeStr with
    | Return t24 => Return (minutesOfNormalized t24)
    | Throw e => Throw e
    end.
Proof.
  unfold timeToMinutes, minutesOfNormalized.
  destruct (normalizeTo24Hour timeStr) as [t24|e]; cbn [bind]; [|reflexivity].
  destruct (hoursAndMinutes t24); reflexivity.
Qed.




(** *** The debounced watcher *)

Lemma lastOpt_snoc (ts : list Z) (t : Z) : lastOpt (ts ++ [t])%list = Some t.
Proof. unfold lastOpt. rewrite rev_app_distr. reflexivity. Qed.

Lemma lastOpt_cons (t t' : Z) (r : list Z) : lastOpt (t :: t' :: r) = lastOpt (t' :: r).
Proof.
  unfold lastOpt. cbn [List.rev].
  destruct (List.rev r ++ [t'])%list as [|x xs] eqn:E.
  - destruct (List.rev r); discriminate.
  - reflexivity.
Qed.

Lemma settled_cons (t t2 : Z) (r : list Z) :
  settled (t :: t2 :: r)
  = ((if t + FM.debounceDelay <=? t2 then [t + FM.debounceDelay] else [])
     ++ settled (t2 :: r))%list.
Proof. reflexivity. Qed.

Lemma settled_snoc (ts : list Z) (t' : Z) :
  settled (ts ++ [t'])%list
  = (settled ts ++ match lastOpt ts with
                   | Some t => if t + FM.debounceDelay <=? t' then [t + FM.debounceDelay] else []
                   | None => []
                   end)%list.
Proof.
  induction ts as [|t r IH]; [reflexivity|].
  destruct r as [|t2 r].
  - cbn. rewrite app_nil_r. reflexivity.
  - change ((t :: t2 :: r) ++ [t'])%list with (t :: t2 :: (r ++ [t']))%list.
    change ((t2 :: r) ++ [t'])%list with (t2 :: (r ++ [t']))%list in IH.
    rewrite !settled_cons, IH, lastOpt_cons, <- app_assoc. reflexivity.
Qed.

Lemma runTimers_debounced (l : FM.Loop) (qs : list Z) (T T' : Z) :
  debounced l qs T -> T <= T' -> debounced (FM.runTimers T' l) qs T'.
Proof.
  intros (Hw & (cb & Hcb) & Hclk & Hst) HT.
  unfold debounced, FM.runTimers.
  destruct (lastOpt qs) as [t|].
  - destruct Hst as (Ht & [(Hlt & (id & Hid & Htm) & Hinv) | (Hle & Htm & Hinv)]).
    + rewrite Htm. cbn [List.filter FM.due].
      destruct (t + FM.debounceDelay <=? T') eqn:Hdue.
      * apply Z.leb_le in Hdue. cbn [negb fold_left]. unfold FM.onDebounce.
        cbn [FM.self FM.due]. rewrite Hcb.
        cbn [FM.clock FM.timers FM.nextTimerId FM.invoked FM.self].
        repeat split; try assumption; try lia.
        -- eauto.
        -- right. repeat split; [lia | rewrite Hinv; reflexivity].
      * apply Z.leb_gt in Hdue. cbn [negb fold_left].
        cbn [FM.clock FM.timers FM.nextTimerId FM.invoked FM.self].
        repeat split; try assumption; try lia.
        -- eauto.
        -- left. repeat split; [lia | eauto | exact Hinv].
    + rewrite Htm. cbn [List.filter fold_left].
      cbn [FM.clock FM.timers FM.nextTimerId FM.invoked FM.self].
      repeat split; try assumption; try lia.
      * eauto.
      * right. repeat split; [lia | exact Hinv].
  - destruct Hst as [Htm Hinv]. rewrite Htm. cbn [List.filter fold_left].
    cbn [FM.clock FM.timers FM.nextTimerId FM.invoked FM.self].
    repeat split; try assumption; try lia. eauto.
Qed.

Lemma lastOpt_none (ts : list Z) : lastOpt ts = None -> ts = [].
Proof.
  destruct ts as [|t r] using rev_ind; [reflexivity|].
  rewrite lastOpt_snoc. discriminate.
Qed.

Lemma onWatchEvent_other (l : FM.Loop) (filename : option string) :
  qualifies filename = false -> FM.onWatchEvent filename l = l.
Proof.
  unfold qualifies, FM.onWatchEvent.
  destruct filename as [[|c f]|]; try reflexivity.
  intros H. apply orb_false_elim in H. destruct H as [-> ->]. reflexivity.
Qed.

Lemma clearTimeout_pending (l : FM.Loop) :
  FM.timers l = []
  \/ (exists id d, FM.debounceTimer (FM.self l) = Some id
                   /\ FM.timers l = [{| FM.timerId := id; FM.due := d |}]) ->
  FM.timers (FM.clearTimeout (FM.debounceTimer (FM.self l)) l) = [].
Proof.
  intros [H | (id & d & Hid & H)]; unfold FM.clearTimeout.
  - destruct (FM.debounceTimer (FM.self l)); [|exact H].
    cbn [FM.timers]. rewrite H. reflexivity.
  - rewrite Hid. cbn [FM.timers]. rewrite H. cbn [List.filter FM.timerId].
    rewrite Nat.eqb_refl. reflexivity.
Qed.

Lemma clearTimeout_rest (id : option nat) (l : FM.Loop) :
  FM.clock (FM.clearTimeout id l) = FM.clock l
  /\ FM.invoked (FM.clearTimeout id l) = FM.invoked l
  /\ FM.self (FM.clearTimeout id l) = FM.self l
  /\ FM.nextTimerId (FM.clearTimeout id l) = FM.nextTimerId l.
Proof. destruct id; repeat split; reflexivity. Qed.

Lemma onWatchEvent_qualifying (l : FM.Loop) (qs : list Z) (T : Z)
  (filename : option string) :
  debounced l qs T -> qualifies filename = true ->
  debounced (FM.onWatchEvent filename l) (qs ++ [T])%list T.
Proof.
  intros (Hw & (cb & Hcb) & Hclk & Hst) Hq.
  unfold qualifies in Hq. destruct filename as [[|c f]|]; try discriminate.
  unfold FM.onWatchEvent.
  destruct (negb (endsWith ".yaml" (String c f)) && negb (endsWith ".yml" (String c f)))
    eqn:Hneg.
  { apply andb_prop in Hneg. destruct Hneg as [H1 H2].
    apply negb_true_iff in H1, H2. rewrite H1, H2 in Hq. discriminate. }
  assert (Hclear : FM.timers (FM.clearTimeout (FM.debounceTimer (FM.self l)) l) = []).
  { apply clearTimeout_pending. destruct (lastOpt qs) as [t|].
    - destruct Hst as (_ & [(_ & (id & Hid & Htm) & _) | (_ & Htm & _)]);
        [right; eauto | left; exact Htm].
    - left. exact (proj1 Hst). }
  destruct (clearTimeout_rest (FM.debounceTimer (FM.self l)) l) as (C1 & C2 & C3 & C4).
  unfold FM.setTimeout, FM.setSelf.
  cbn [FM.clock FM.timers FM.nextTimerId FM.invoked FM.self
       FM.scheduleFolderPath FM.fileWatcher FM.changeCallback FM.debounceTimer].
  unfold debounced.
  cbn [FM.clock FM.timers FM.nextTimerId FM.invoked FM.self
       FM.scheduleFolderPath FM.fileWatcher FM.changeCallback FM.debounceTimer].
  rewrite Hclear, C1, C2, C3, C4, lastOpt_snoc, settled_snoc.
  split; [exact Hw|]. split; [eauto|]. split; [exact Hclk|].
  split; [lia|]. left. split; [unfold FM.debounceDelay; lia|].
  split.
  - eexists. split; [reflexivity|]. rewrite Hclk. reflexivity.
  - destruct (lastOpt qs) as [t|] eqn:Hlast.
    + destruct Hst as (Ht & [(Hlt & _ & Hinv) | (Hle & _ & Hinv)]).
      * rewrite Hinv. destruct (t + FM.debounceDelay <=? T) eqn:E;
          [apply Z.leb_le in E; lia|]. rewrite app_nil_r. reflexivity.
      * rewrite Hinv. destruct (t + FM.debounceDelay <=? T) eqn:E;
          [reflexivity|]. apply Z.leb_gt in E. lia.
    + destruct Hst as [_ Hinv]. rewrite Hinv, (lastOpt_none qs Hlast). reflexivity.
Qed.

Lemma deliver_debounced (l : FM.Loop) (qs : list Z) (T : Z) (ev : Z * option string) :
  debounced l qs T -> T <= fst ev ->
  debounced (FM.deliver l ev)
    (if qualifies (snd ev) then (qs ++ [fst ev])%list else qs) (fst ev).
Proof.
  intros Hd HT. unfold FM.deliver.
  pose proof (runTimers_debounced l qs T (fst ev) Hd HT) as H1.
  rewrite (proj1 H1).
  destruct (qualifies (snd ev)) eqn:Hq.
  - apply onWatchEvent_qualifying; assumption.
  - rewrite (onWatchEvent_other _ _ Hq). exact H1.
Qed.

Lemma qualifyingTimes_cons (ev : Z * option string) (events : list (Z * option string)) :
  qualifyingTimes (ev :: events)
  = ((if qualifies (snd ev) then [fst ev] else []) ++ qualifyingTimes events)%list.
Proof.
  unfold qualifyingTimes. cbn [List.filter].
  destruct (qualifies (snd ev)); reflexivity.
Qed.

Lemma deliveries_debounced (events : list (Z * option string)) :
  forall (l : FM.Loop) (qs : list Z) (T : Z),
    debounced l qs T ->
    inOrder T (List.map fst events) = true ->
    exists T', debounced (fold_left FM.deliver events l)
                 (qs ++ qualifyingTimes events)%list T'.
Proof.
  induction events as [|ev events IH]; intros l qs T Hd Hord.
  - exists T. cbn [fold_left]. unfold qualifyingTimes. cbn. rewrite app_nil_r. exact Hd.
  - cbn [List.map inOrder] in Hord. apply andb_prop in Hord.
    destruct Hord as [HT Hord]. apply Z.leb_le in HT.
    pose proof (deliver_debounced l qs T ev Hd HT) as Hstep.
    destruct (IH _ _ _ Hstep Hord) as [T' HT'].
    exists T'. cbn [fold_left]. rewrite qualifyingTimes_cons.
    destruct (qualifies (snd ev)).
    + rewrite <- app_assoc in HT'. exact HT'.
    + exact HT'.
Qed.

Lemma drain_debounced (l : FM.Loop) (qs : list Z) (T : Z) :
  debounced l qs T -> FM.invoked (FM.drain l) = expected qs.
Proof.
  intros (Hw & (cb & Hcb) & Hclk & Hst). unfold FM.drain, expected.
  destruct (lastOpt qs) as [t|] eqn:Hlast.
  - destruct Hst as (Ht & [(Hlt & (id & Hid & Htm) & Hinv) | (Hle & Htm & Hinv)]).
    + rewrite Htm. cbn [fold_left]. unfold FM.onDebounce. cbn [FM.self FM.due].
      rewrite Hcb. cbn [FM.invoked]. rewrite Hinv. reflexivity.
    + rewrite Htm. cbn [fold_left FM.invoked]. exact Hinv.
  - destruct Hst as [Htm Hinv]. rewrite Htm. cbn [fold_left FM.invoked].
    rewrite Hinv, (lastOpt_none qs Hlast). reflexivity.
Qed.

Lemma watching_debounced (path : string) (callback : nat) (start : Z) :
  debounced (watching path callback start) [] start.
Proof.
  unfold debounced, watching. cbn. repeat split; eauto.
Qed.

(** Every run of the watcher: the callback is invoked at the expected
    instants and at no other. *)
Lemma run_expected (path : string) (callback : nat) (start : Z)
  (events : list (Z * option string)) :
  inOrder start (List.map fst events) = true ->
  FM.invoked (FM.run events (watching path callback start))
  = expected (qualifyingTimes events).
Proof.
  intros Hord. unfold FM.run.
  destruct (deliveries_debounced events _ [] start
              (watching_debounced path callback start) Hord) as [T' H].
  exact (drain_debounced _ _ _ H).
Qed.

Lemma settled_burst (ts : list Z) : burst ts = true -> settled ts = [].
Proof.
  induction ts as [|t r IH]; [reflexivity|].
  destruct r as [|t2 r]; [reflexivity|].
  cbn [burst]. intros H. apply andb_prop in H. destruct H as [Hgap Hr].
  apply Z.ltb_lt in Hgap. rewrite settled_cons, (IH Hr).
  destruct (t + FM.debounceDelay <=? t2) eqn:E; [|reflexivity].
  apply Z.leb_le in E. lia.
Qed.

Lemma expected_spaced (ts : list Z) :
  spaced ts = true -> expected ts = List.map (fun t => t + FM.debounceDelay) ts.
Proof.
  unfold expected. induction ts as [|t r IH]; [reflexivity|].
  destruct r as [|t2 r]; [reflexivity|].
  cbn [spaced]. intros H. apply andb_prop in H. destruct H as [Hgap Hr].
  apply Z.ltb_lt in Hgap. rewrite settled_cons, lastOpt_cons.
  destruct (t + FM.debounceDelay <=? t2) eqn:E; [|apply Z.leb_gt in E; lia].
  rewrite <- app_assoc, (IH Hr). reflexivity.
Qed.

(** C10.  A watcher is started with a callback on an idle loop and file
    events reach it in the order of their instants (in milliseconds).  The
    qualifying events are those whose file name ends in [.yaml] or [.yml].
    - If there is at least one qualifying event and each comes less than
      300 ms after the one before (in particular when all of them fall
      within one window), the callback is invoked exactly once, 300 ms
      after the last of them.
    - If each qualifying event comes more than 300 ms after the one before,
      every one of them gets its own invocation, 300 ms after it.
    - Events that do not qualify produce no invocation: without a
      qualifying event the callback is never invoked, and in every case the
      invocations depend on the qualifying events alone. *)
Theorem debounce_invocations (path : string) (callback : nat) (start : Z)
  (events : list (Z * option string)) :
  inOrder start (List.map fst events) = true ->
  let qs := qualifyingTimes events in
  let calls := FM.invoked (FM.run events (watching path callback start)) in
  (forall t, lastOpt qs = Some t -> burst qs = true -> calls = [t + 300])
  /\ (spaced qs = true ->
      calls = List.map (fun t => t + 300) qs
      /\ List.length calls = List.length qs)
  /\ (qs = [] -> calls = [])
  /\ calls = expected qs.
Proof.
  intros Hord qs calls.
  assert (Hrun : calls = expected qs) by (apply run_expected; exact Hord).
  split; [|split; [|split]].
  - intros t Hlast Hburst. rewrite Hrun. unfold expected.
    rewrite (settled_burst qs Hburst), Hlast. reflexivity.
  - intros Hsp. rewrite Hrun, (expected_spaced qs Hsp).
    split; [reflexivity | apply length_map].
  - intros Hnil. rewrite Hrun, Hnil. reflexivity.
  - exact Hrun.
Qed.

Lemma debounce_invocations_witness :
  FM.invoked (FM.run DebounceExample.oneSave (watching "/schedules" 0 0)) = [1420]
  /\ FM.invoked (FM.run DebounceExample.twoSaves (watching "/schedules" 0 0))
     = [1300; 2300].
Proof.
  split.
  - apply (proj1 (debounce_invocations "/schedules" 0 0 DebounceExample.oneSave
                    eq_refl) 1120); reflexivity.
  - apply (proj1 (proj1 (proj2 (debounce_invocations "/schedules" 0 0
                                  DebounceExample.twoSaves eq_refl))
                    eq_refl)).
Defined.

(* ===================================================================== *)
(** ** Further properties of the two classes and of the tray menu         *)
(* ===================================================================== *)

(** *** Conversions between the two notations *)

Lemma in_rangeZ (n : nat) (z : Z) : 0 <= z < Z.of_nat n -> In z (rangeZ n).
Proof.
  intros Hz. unfold rangeZ. apply in_map_iff. exists (Z.to_nat z).
  split; [lia|]. apply in_seq. lia.
Qed.

Lemma conversions_checked :
  forallb (fun h => forallb (conversionsAgree h) (rangeZ 60)) (rangeZ 24) = true.
Proof. vm_compute. reflexivity. Qed.

Lemma conversionsAgree_valid (h m : Z) :
  0 <= h < 24 -> 0 <= m < 60 -> conversionsAgree h m = true.
Proof.
  intros Hh Hm.
  pose proof conversions_checked as H.
  rewrite forallb_forall in H. specialize (H h (in_rangeZ 24 h Hh)).
  rewrite forallb_forall in H. exact (H m (in_rangeZ 60 m Hm)).
Qed.

(** For every time of day, [formatTo12Hour] turns the 24-hour text
    ["HH:MM"] into ["H:MM AM"] or ["H:MM PM"] (hour 0 shows as 12 AM, hour
    12 as 12 PM, the minutes stay on two digits), and [normalizeTo24Hour]
    turns that text back into ["HH:MM"]: on valid times each conversion
    undoes the other. *)
Theorem notations_round_trip (h m : Z) :
  0 <= h < 24 -> 0 <= m < 60 ->
  formatTo12Hour (clockText h m) = twelveHourText h m
  /\ normalizeTo24Hour (twelveHourText h m) = Return (clockText h m)
  /\ normalizeTo24Hour (formatTo12Hour (clockText h m)) = Return (clockText h m)
  /\ (exists t24, normalizeTo24Hour (twelveHourText h m) = Return t24
                  /\ formatTo12Hour t24 = twelveHourText h m).
Proof.
  intros Hh Hm. pose proof (conversionsAgree_valid h m Hh Hm) as H.
  unfold conversionsAgree in H.
  apply andb_prop in H. destruct H as [H _].
  apply andb_prop in H. destruct H as [H _].
  apply andb_prop in H. destruct H as [Hf Hn].
  apply String.eqb_eq in Hf.
  unfold returnsText in Hn.
  destruct (normalizeTo24Hour (twelveHourText h m)) as [r|] eqn:Hr; [|discriminate].
  apply String.eqb_eq in Hn. subst r.
  split; [exact Hf|]. split; [reflexivity|]. split; [rewrite Hf; exact Hr|].
  exists (clockText h m). split; [reflexivity | exact Hf].
Qed.

Lemma notations_round_trip_witness :
  formatTo12Hour "00:07" = "12:07 AM"
  /\ normalizeTo24Hour "12:07 AM" = Return "00:07".
Proof.
  split.
  - exact (proj1 (notations_round_trip 0 7 ltac:(lia) ltac:(lia))).
  - exact (proj1 (proj2 (notations_round_trip 0 7 ltac:(lia) ltac:(lia)))).
Defined.

(** For every time of day, [timeToMinutes] gives [h * 60 + m] on the
    24-hour text and on the 12-hour text alike, a number of minutes from 0
    to 1439. *)
Theorem timeToMinutes_of_valid_time (h m : Z) :
  0 <= h < 24 -> 0 <= m < 60 ->
  timeToMinutes (clockText h m) = Return (Num (h * 60 + m))
  /\ timeToMinutes (twelveHourText h m) = Return (Num (h * 60 + m))
  /\ 0 <= h * 60 + m < 1440.
Proof.
  intros Hh Hm. pose proof (conversionsAgree_valid h m Hh Hm) as H.
  unfold conversionsAgree in H.
  apply andb_prop in H. destruct H as [H H4].
  apply andb_prop in H. destruct H as [_ H3].
  unfold returnsNumber in H3, H4.
  destruct (timeToMinutes (clockText h m)) as [[|z1]|]; try discriminate.
  destruct (timeToMinutes (twelveHourText h m)) as [[|z2]|]; try discriminate.
  apply Z.eqb_eq in H3, H4. subst. repeat split; lia.
Qed.

Lemma timeToMinutes_of_valid_time_witness :
  timeToMinutes "13:30" = Return (Num 810)
  /\ timeToMinutes "1:30 PM" = Return (Num 810).
Proof.
  split.
  - exact (proj1 (timeToMinutes_of_valid_time 13 30 ltac:(lia) ltac:(lia))).
  - exact (proj1 (proj2 (timeToMinutes_of_valid_time 13 30 ltac:(lia) ltac:(lia)))).
Defined.

(** *** Normalized times *)

Lemma allChars_app (p : ascii -> bool) (a b : string) :
  allChars p (a ++ b) = allChars p a && allChars p b.
Proof.
  induction a as [|c a IH]; [reflexivity|].
  norm_append. cbn [allChars]. rewrite IH. apply andb_assoc.
Qed.

Lemma allChars_impl (p q : ascii -> bool) (s : string) :
  (forall c, p c = true -> q c = true) -> allChars p s = true -> allChars q s = true.
Proof.
  intros Hpq. induction s as [|c s IH]; [reflexivity|].
  cbn [allChars]. intros H. apply andb_prop in H. destruct H as [Hc Hs].
  rewrite (Hpq c Hc), (IH Hs). reflexivity.
Qed.

Lemma uint_text_digits (d : Decimal.uint) :
  allChars isDigit (NilEmpty.string_of_uint d) = true.
Proof. induction d; cbn; auto. Qed.

Lemma unpadded_digits (n : Z) : 0 <= n -> allChars isDigit (unpadded n) = true.
Proof.
  intros Hn. unfold unpadded. destruct n as [|p|p]; [reflexivity| |lia].
  cbn [Z.to_int NilZero.string_of_int]. unfold NilZero.string_of_uint.
  destruct (Pos.to_uint p) eqn:E; try (rewrite <- E; apply uint_text_digits).
  reflexivity.
Qed.

Lemma padStart_digits (s : string) :
  allChars isDigit s = true -> allChars isDigit (padStart 2 "0" s) = true.
Proof.
  intros H. unfold padStart. rewrite allChars_app, H, andb_true_r.
  induction (2 - String.length s)%nat as [|k IH]; [reflexivity|].
  cbn [repeatChar allChars]. exact IH.
Qed.

Lemma digitValue_nonneg (c : ascii) : isDigit c = true -> 0 <= digitValue c.
Proof.
  unfold isDigit, digitValue. intros H. apply andb_prop in H. destruct H as [H _].
  apply N.leb_le in H. lia.
Qed.

Lemma digitsValue_nonneg (g : string) (acc v : Z) :
  0 <= acc -> digitsValue acc g = Some v -> 0 <= v.
Proof.
  revert acc. induction g as [|c g IH]; intros acc Hacc; cbn [digitsValue].
  - intros [= <-]. exact Hacc.
  - destruct (isDigit c) eqn:Hc; [|discriminate].
    apply IH. pose proof (digitValue_nonneg c Hc). lia.
Qed.

Lemma hourValue_nonneg (g : string) : 0 <= hourValue g.
Proof.
  unfold hourValue. destruct (digitsValue 0 g) as [v|] eqn:E; cbn; [|lia].
  exact (digitsValue_nonneg g 0 v ltac:(lia) E).
Qed.

Lemma hour24_nonneg (h : Z) (pm : bool) : 0 <= h -> 0 <= hour24 h pm.
Proof.
  intros Hh. unfold hour24. destruct pm; destruct (h =? 12); lia.
Qed.

Lemma clockChar_plain (c : ascii) :
  isClockChar c = true ->
  isWhiteSpace c = false
  /\ matchesLetter "a" c || matchesLetter "p" c = false.
Proof.
  destruct c as [[] [] [] [] [] [] [] []]; vm_compute; intuition congruence.
Qed.

Lemma trimEnd_no_space (s : string) :
  allChars (fun c => negb (isWhiteSpace c)) s = true -> trimEnd s = s.
Proof.
  induction s as [|c s IH]; [reflexivity|].
  cbn [allChars]. intros H. apply andb_prop in H. destruct H as [Hc Hs].
  apply negb_true_iff in Hc. cbn [trimEnd]. rewrite (IH Hs).
  destruct s; [rewrite Hc|]; reflexivity.
Qed.

Lemma clockText_is_normal (r : string) :
  allChars isClockChar r = true -> trim r = r /\ hasPeriodMarker r = false.
Proof.
  intros H. split.
  - unfold trim.
    assert (Hns : allChars (fun c => negb (isWhiteSpace c)) r = true).
    { apply (allChars_impl isClockChar); [|exact H].
      intros c Hc. rewrite (proj1 (clockChar_plain c Hc)). reflexivity. }
    rewrite trimStart_of_clean; [exact (trimEnd_no_space r Hns)|].
    destruct r as [|c r]; [reflexivity|].
    cbn [allChars] in Hns. apply andb_prop in Hns. exact (proj1 Hns).
  - induction r as [|a r IH]; [reflexivity|].
    cbn [allChars] in H. apply andb_prop in H. destruct H as [Ha Hr].
    cbn [hasPeriodMarker]. destruct r as [|b r']; [reflexivity|].
    rewrite (proj2 (clockChar_plain a Ha)), (IH Hr). reflexivity.
Qed.

Lemma normalizeTo24Hour_result (timeStr r : string) :
  normalizeTo24Hour timeStr = Return r ->
  (hasPeriodMarker (trim timeStr) = false /\ r = trim timeStr)
  \/ allChars isClockChar r = true.
Proof.
  intros H. destruct (hasPeriodMarker (trim timeStr)) eqn:Hm.
  - right.
    destruct (matchTime (trim timeStr)) as [[[g1 g2] g3]|] eqn:Hmatch.
    + rewrite (normalizeTo24Hour_matched timeStr g1 g2 g3 Hm Hmatch) in H.
      injection H as <-.
      apply matchTime_sound in Hmatch.
      destruct Hmatch as (pre & rest & _ & _ & Hmin & _).
      unfold isMinuteText in Hmin. apply andb_prop in Hmin. destruct Hmin as [Hd _].
      rewrite !allChars_app.
      assert (Hdigits : forall c, isDigit c = true -> isClockChar c = true).
      { intros c Hc. unfold isClockChar. rewrite Hc. reflexivity. }
      rewrite (allChars_impl isDigit isClockChar _ Hdigits
                 (padStart_digits _ (unpadded_digits _
                    (hour24_nonneg _ _ (hourValue_nonneg g1))))).
      rewrite (allChars_impl isDigit isClockChar _ Hdigits Hd).
      reflexivity.
    + unfold normalizeTo24Hour in H. rewrite Hm, Hmatch in H. discriminate.
  - left. unfold normalizeTo24Hour in H. rewrite Hm in H. injection H as <-.
    split; reflexivity.
Qed.

(** [normalizeTo24Hour] is idempotent: a text it returns is returned
    unchanged when normalized again, whatever the input was, and
    [timeToMinutes] gives the same minutes for the input and for its
    normalized form. *)
Theorem normalizeTo24Hour_idempotent (timeStr r : string) :
  normalizeTo24Hour timeStr = Return r ->
  normalizeTo24Hour r = Return r
  /\ timeToMinutes r = timeToMinutes timeStr.
Proof.
  intros H.
  assert (Hr : normalizeTo24Hour r = Return r).
  { destruct (normalizeTo24Hour_result timeStr r H) as [[Hm ->] | Hclock].
    - unfold normalizeTo24Hour. rewrite trim_idempotent, Hm. reflexivity.
    - destruct (clockText_is_normal r Hclock) as [Ht Hm].
      unfold normalizeTo24Hour. rewrite Ht, Hm. reflexivity. }
  split; [exact Hr|].
  rewrite !timeToMinutes_normalized, H, Hr. reflexivity.
Qed.

Lemma normalizeTo24Hour_idempotent_witness :
  normalizeTo24Hour "09:30" = Return "09:30"
  /\ timeToMinutes "09:30" = timeToMinutes " 9:30 am ".
Proof.
  exact (normalizeTo24Hour_idempotent " 9:30 am " "09:30" eq_refl).
Defined.

(** *** Times without minutes *)

Lemma split_without_separator (sep : ascii) (s : string) :
  allChars (fun c => negb (Ascii.eqb c sep)) s = true -> split sep s = [s].
Proof.
  induction s as [|c s IH]; [reflexivity|].
  cbn [allChars]. intros H. apply andb_prop in H. destruct H as [Hc Hs].
  apply negb_true_iff in Hc. cbn [split]. rewrite Hc, (IH Hs). reflexivity.
Qed.

(** A time string with no colon and no period marker is accepted by
    [normalizeTo24Hour], but its minutes are [NaN]: a block that starts at
    such a time is never the block [getCurrentClass] returns and never the
    block [getNextClass] returns. *)
Theorem block_without_colon_is_hidden (cls : Block) :
  hasPeriodMarker (trim (startTime cls)) = false ->
  allChars (fun c => negb (Ascii.eqb c ":")) (trim (startTime cls)) = true ->
  timeToMinutes (startTime cls) = Return NaN
  /\ forall (this : ScheduleManager.t) (now m : Date),
       getCurrentClass this now m <> Return (Some cls)
       /\ getNextClass this now m <> Return (Some cls).
Proof.
  intros Hm Hc.
  assert (Hnan : timeToMinutes (startTime cls) = Return NaN).
  { unfold timeToMinutes, normalizeTo24Hour. rewrite Hm. cbn [bind].
    unfold hoursAndMinutes. rewrite (split_without_separator ":" _ Hc).
    cbn [List.map]. destruct (Number (trim (startTime cls))); reflexivity. }
  split; [exact Hnan|].
  intros this now m. unfold getCurrentClass, getNextClass, getTodaySchedule.
  destruct (schedule this) as [sched|]; cbn [bind]; [|split; discriminate].
  split; intros H; apply find_some_holds in H; rewrite Hnan in H; cbn [bind] in H.
  - destruct (timeToMinutes (endTime cls)); cbn [bind] in H; discriminate.
  - discriminate.
Qed.

Lemma block_without_colon_is_hidden_witness :
  timeToMinutes "9" = Return NaN
  /\ getNextClass
       (Examples.loaded (<["Monday" := [Examples.block "A1" "9" "10:05"]]> ∅))
       ScanExamples.monday (Examples.moment 1 8 0 0)
     <> Return (Some (Examples.block "A1" "9" "10:05")).
Proof.
  split.
  - exact (proj1 (block_without_colon_is_hidden (Examples.block "A1" "9" "10:05")
                    eq_refl eq_refl)).
  - exact (proj2 (proj2 (block_without_colon_is_hidden (Examples.block "A1" "9" "10:05")
                           eq_refl eq_refl)
                    (Examples.loaded (<["Monday" := [Examples.block "A1" "9" "10:05"]]> ∅))
                    ScanExamples.monday (Examples.moment 1 8 0 0))).
Defined.

(** *** Countdowns of a block that was found *)








(** *** Details and the tray menu *)

Lemma orElse_empty (s : string) : orElse s EmptyString = s.
Proof. destruct s; reflexivity. Qed.

Lemma timeToMinutes_returns (timeStr : string) (v : number) :
  timeToMinutes timeStr = Return v -> exists t24, normalizeTo24Hour timeStr = Return t24.
Proof.
  rewrite timeToMinutes_normalized.
  destruct (normalizeTo24Hour timeStr) as [t24|]; [eauto | discriminate].
Qed.

Lemma render_returns (template : string) (cls : Block) (s24 e24 : string) :
  normalizeTo24Hour (startTime cls) = Return s24 ->
  normalizeTo24Hour (endTime cls) = Return e24 ->
  exists lines,
    renderDescriptionTemplate template cls = Return lines
    /\ Forall (fun line => line <> EmptyString /\ trim line = line) lines.
Proof.
  intros Hs He. unfold renderDescriptionTemplate.
  rewrite !timeToMinutes_normalized, Hs, He. cbn [bind]. cbv zeta.
  eexists. split; [reflexivity|].
  apply List.Forall_forall. intros line Hin.
  apply filter_In in Hin. destruct Hin as [Hin Hne].
  apply in_map_iff in Hin. destruct Hin as (raw & <- & _).
  split; [|apply trim_idempotent].
  intros Heq. rewrite Heq in Hne. discriminate.
Qed.

Lemma render_throws_on_end (template : string) (cls : Block) (s24 : string) (e : exn) :
  normalizeTo24Hour (startTime cls) = Return s24 ->
  normalizeTo24Hour (endTime cls) = Throw e ->
  renderDescriptionTemplate template cls = Throw e.
Proof.
  intros Hs He. unfold renderDescriptionTemplate.
  rewrite !timeToMinutes_normalized, Hs, He. reflexivity.
Qed.

Lemma current_block_times (this : ScheduleManager.t) (now m : Date) (c : Block) :
  getCurrentClass this now m = Return (Some c) ->
  exists s24 e24,
    normalizeTo24Hour (startTime c) = Return s24
    /\ normalizeTo24Hour (endTime c) = Return e24.
Proof.
  intros Hc. unfold getCurrentClass, getTodaySchedule in Hc.
  destruct (schedule this) as [sched|]; cbn [bind] in Hc; [|discriminate].
  apply find_some_holds in Hc.
  destruct (timeToMinutes (startTime c)) as [st|] eqn:Hst; cbn [bind] in Hc;
    [|discriminate].
  destruct (timeToMinutes (endTime c)) as [en|] eqn:Hen; cbn [bind] in Hc;
    [|discriminate].
  destruct (timeToMinutes_returns _ _ Hst) as [s24 Hs].
  destruct (timeToMinutes_returns _ _ Hen) as [e24 He].
  eauto.
Qed.

Lemma next_block_start (this : ScheduleManager.t) (now m : Date) (n : Block) :
  getNextClass this now m = Return (Some n) ->
  exists s24, normalizeTo24Hour (startTime n) = Return s24.
Proof.
  intros Hn. unfold getNextClass, getTodaySchedule in Hn.
  destruct (schedule this) as [sched|]; cbn [bind] in Hn; [|discriminate].
  apply find_some_holds in Hn.
  destruct (timeToMinutes (startTime n)) as [st|] eqn:Hst; cbn [bind] in Hn;
    [|discriminate].
  exact (timeToMinutes_returns _ _ Hst).
Qed.

(** [getCurrentClassDetails] cannot fail once a current block is found:
    when [getCurrentClass] returns a block, the details are returned, with
    the rendered description lines (each non-empty and trimmed), the
    countdown of [getTimeRemainingInClass], the block's own times, and
    ["Unknown"] in place of an empty block name.  When [getCurrentClass]
    returns none, so does [getCurrentClassDetails]. *)
Theorem getCurrentClassDetails_of_current (this : ScheduleManager.t) (now m : Date) :
  (forall c, getCurrentClass this now m = Return (Some c) ->
     exists lines text,
       renderDescriptionTemplate (description c) c = Return lines
       /\ Forall (fun line => line <> EmptyString /\ trim line = line) lines
       /\ getTimeRemainingInClass this now m = Return (Some text)
       /\ getCurrentClassDetails this now m
          = Return (Some {| CurrentDetails.blockName := orElse (blockName c) "Unknown";
                            CurrentDetails.description := description c;
                            CurrentDetails.descriptionLines := lines;
                            CurrentDetails.startTime := startTime c;
                            CurrentDetails.endTime := endTime c;
                            CurrentDetails.timeRemaining := Some text |}))
  /\ (getCurrentClass this now m = Return None ->
      getCurrentClassDetails this now m = Return None).
Proof.
  split.
  - intros c Hc.
    destruct (current_block_times this now m c Hc) as (s24 & e24 & Hs & He).
    destruct (render_returns (description c) c s24 e24 Hs He) as (lines & Hl & Hall).
    assert (Hrem : exists text, getTimeRemainingInClass this now m = Return (Some text)).
    { unfold getTimeRemainingInClass. rewrite Hc. cbn [bind].
      rewrite timeToMinutes_normalized, He. cbn [bind]. eauto. }
    destruct Hrem as [text Hrem].
    exists lines, text. split; [exact Hl|]. split; [exact Hall|]. split; [exact Hrem|].
    unfold getCurrentClassDetails. rewrite Hc. cbn [bind].
    rewrite orElse_empty, Hl. cbn [bind]. rewrite Hrem. reflexivity.
  - intros Hc. unfold getCurrentClassDetails. rewrite Hc. reflexivity.
Qed.

Lemma getCurrentClassDetails_of_current_witness :
  exists lines text,
    renderDescriptionTemplate EmptyString (Examples.block "A1" "9:00 AM" "10:05 AM")
    = Return lines
    /\ Forall (fun line => line <> EmptyString /\ trim line = line) lines
    /\ getTimeRemainingInClass Examples.mondayOnly ScanExamples.monday
         (Examples.moment 1 9 30 0) = Return (Some text)
    /\ getCurrentClassDetails Examples.mondayOnly ScanExamples.monday
         (Examples.moment 1 9 30 0)
       = Return (Some {| CurrentDetails.blockName := "A1";
                         CurrentDetails.description := EmptyString;
                         CurrentDetails.descriptionLines := lines;
                         CurrentDetails.startTime := "9:00 AM";
                         CurrentDetails.endTime := "10:05 AM";
                         CurrentDetails.timeRemaining := Some text |}).
Proof.
  exact (proj1 (getCurrentClassDetails_of_current Examples.mondayOnly
                  ScanExamples.monday (Examples.moment 1 9 30 0))
           (Examples.block "A1" "9:00 AM" "10:05 AM") eq_refl).
Defined.

(** [getNextClassDetails] parses more than [getNextClass] does: when
    [getNextClass] returns a block, the details are returned if
    [normalizeTo24Hour] accepts the block's [endTime], and the call throws
    that rejection otherwise, although the block itself was found.  When
    [getNextClass] returns none, so does [getNextClassDetails]. *)
Theorem getNextClassDetails_of_next (this : ScheduleManager.t) (now m : Date) :
  (forall n, getNextClass this now m = Return (Some n) ->
     match normalizeTo24Hour (endTime n) with
     | Return _ =>
         exists lines,
           renderDescriptionTemplate (description n) n = Return lines
           /\ Forall (fun line => line <> EmptyString /\ trim line = line) lines
           /\ getNextClassDetails this now m
              = Return (Some {| NextDetails.blockName := orElse (blockName n) "Unknown";
                                NextDetails.description := description n;
                                NextDetails.descriptionLines := lines;
                                NextDetails.startTime := startTime n;
                                NextDetails.endTime := endTime n |})
     | Throw e => getNextClassDetails this now m = Throw e
     end)
  /\ (getNextClass this now m = Return None ->
      getNextClassDetails this now m = Return None).
Proof.
  split.
  - intros n Hn. destruct (next_block_start this now m n Hn) as [s24 Hs].
    destruct (normalizeTo24Hour (endTime n)) as [e24|e] eqn:He.
    + destruct (render_returns (description n) n s24 e24 Hs He) as (lines & Hl & Hall).
      exists lines. split; [exact Hl|]. split; [exact Hall|].
      unfold getNextClassDetails. rewrite Hn. cbn [bind].
      rewrite orElse_empty, Hl. reflexivity.
    + unfold getNextClassDetails. rewrite Hn. cbn [bind].
      rewrite orElse_empty, (render_throws_on_end _ n s24 e Hs He). reflexivity.
  - intros Hn. unfold getNextClassDetails. rewrite Hn. reflexivity.
Qed.

Lemma getNextClassDetails_of_next_witness :
  getNextClass
    (Examples.loaded (<["Monday" := [Examples.block "A1" "9:00 AM" "late pm"]]> ∅))
    ScanExamples.monday (Examples.moment 1 8 0 0)
  = Return (Some (Examples.block "A1" "9:00 AM" "late pm"))
  /\ getNextClassDetails
       (Examples.loaded (<["Monday" := [Examples.block "A1" "9:00 AM" "late pm"]]> ∅))
       ScanExamples.monday (Examples.moment 1 8 0 0)
     = Throw (Error "Invalid 12-hour time format: late pm").
Proof.
  split; [reflexivity|].
  exact (proj1 (getNextClassDetails_of_next
                  (Examples.loaded
                     (<["Monday" := [Examples.block "A1" "9:00 AM" "late pm"]]> ∅))
                  ScanExamples.monday (Examples.moment 1 8 0 0))
           (Examples.block "A1" "9:00 AM" "late pm") eq_refl).
Defined.

Lemma current_details_lines (this : ScheduleManager.t) (now m : Date)
  (d : CurrentDetails.t) :
  getCurrentClassDetails this now m = Return (Some d) ->
  Forall (fun line => line <> EmptyString /\ trim line = line)
    (CurrentDetails.descriptionLines d).
Proof.
  unfold getCurrentClassDetails.
  destruct (getCurrentClass this now m) as [[c|]|] eqn:Hc; cbn [bind]; try discriminate.
  destruct (current_block_times this now m c Hc) as (s24 & e24 & Hs & He).
  destruct (render_returns (orElse (description c) EmptyString) c s24 e24 Hs He)
    as (lines & Hl & Hall).
  rewrite Hl. cbn [bind].
  destruct (getTimeRemainingInClass this now m); cbn [bind]; [|discriminate].
  intros [= <-]. exact Hall.
Qed.

Lemma next_details_lines (this : ScheduleManager.t) (now m : Date)
  (d : NextDetails.t) :
  getNextClassDetails this now m = Return (Some d) ->
  Forall (fun line => line <> EmptyString /\ trim line = line)
    (NextDetails.descriptionLines d).
Proof.
  unfold getNextClassDetails.
  destruct (getNextClass this now m) as [[n|]|] eqn:Hn; cbn [bind]; try discriminate.
  destruct (next_block_start this now m n Hn) as [s24 Hs].
  destruct (normalizeTo24Hour (endTime n)) as [e24|e] eqn:He.
  - destruct (render_returns (orElse (description n) EmptyString) n s24 e24 Hs He)
      as (lines & Hl & Hall).
    rewrite Hl. cbn [bind]. intros [= <-]. exact Hall.
  - rewrite (render_throws_on_end _ n s24 e Hs He). discriminate.
Qed.

Lemma lineItems_are_text (lines : list string) :
  Forall (fun line => line <> EmptyString /\ trim line = line) lines ->
  Forall isTextItem (List.map Main.lineItem lines).
Proof.
  intros H. induction H as [|line lines [Hne _] _ IH]; cbn [List.map]; constructor.
  - repeat split. exists line. split; [reflexivity | exact Hne].
  - exact IH.
Qed.

(** Every menu [createContextMenu] returns ends with a separator and the
    Quit entry, and every entry before them is a plain entry with a
    non-empty label: the description lines of the current block, or the
    disabled header ["Next Up:"] followed by the lines of the next block,
    or the single entry ["No Class"].  With [scheduleManager] still [null]
    the call throws. *)
Theorem menu_ends_with_quit (manager : ScheduleManager.t) (now : Date)
  (menu : list Main.MenuItem) :
  Main.createContextMenu (Some manager) now = Return menu ->
  (exists body,
     menu = (body ++ [separatorItem; quitItem])%list
     /\ Forall isTextItem body
     /\ ((exists d, getCurrentClassDetails manager now now = Return (Some d)
                    /\ body = List.map Main.lineItem (CurrentDetails.descriptionLines d))
         \/ (exists d, getNextClassDetails manager now now = Return (Some d)
                       /\ body = nextUpHeader
                                 :: List.map Main.lineItem (NextDetails.descriptionLines d))
         \/ body = [Main.lineItem "No Class"]))
  /\ Main.createContextMenu None now = Throw (TypeError "Cannot read properties of null").
Proof.
  intros H. split; [|reflexivity].
  unfold Main.createContextMenu in H.
  destruct (getCurrentClassDetails manager now now) as [[d|]|] eqn:Hc; cbn [bind] in H;
    [| |discriminate].
  - injection H as <-.
    exists (List.map Main.lineItem (CurrentDetails.descriptionLines d)).
    split; [reflexivity|]. split.
    + apply lineItems_are_text. exact (current_details_lines _ _ _ _ Hc).
    + left. eauto.
  - destruct (getNextClassDetails manager now now) as [[d|]|] eqn:Hn; cbn [bind] in H;
      [| |discriminate].
    + injection H as <-.
      exists (nextUpHeader :: List.map Main.lineItem (NextDetails.descriptionLines d)).
      split; [reflexivity|]. split.
      * constructor.
        -- repeat split. exists "Next Up:". split; [reflexivity | discriminate].
        -- apply lineItems_are_text. exact (next_details_lines _ _ _ _ Hn).
      * right. left. eauto.
    + injection H as <-. exists [Main.lineItem "No Class"].
      split; [reflexivity|]. split.
      * constructor; [|constructor]. repeat split.
        exists "No Class". split; [reflexivity | discriminate].
      * right. right. reflexivity.
Qed.

Lemma menu_ends_with_quit_witness :
  exists body,
    [Main.lineItem "No Class"; separatorItem; quitItem]
    = (body ++ [separatorItem; quitItem])%list
    /\ Forall isTextItem body.
Proof.
  destruct (proj1 (menu_ends_with_quit Examples.mondayOnly (Examples.moment 1 11 0 0)
                     [Main.lineItem "No Class"; separatorItem; quitItem] eq_refl))
    as (body & H1 & H2 & _).
  exists body. split; assumption.
Defined.

(** *** A day without blocks *)

(** When the document has no list for the weekday the clock shows, or an
    empty one, every query answers at once, whatever the moment: no current
    and no next block, no countdown, no details, [getDisplayTime] returns
    [noClassText] and the menu shows ["No Class"]. *)
Theorem day_without_blocks (this : ScheduleManager.t) (now m : Date)
  (sched : gmap string (list Block)) (cfg : Config) :
  schedule this = Some sched ->
  config this = Some cfg ->
  sched !! getDayName now = None \/ sched !! getDayName now = Some [] ->
  getTodaySchedule this now = Return []
  /\ getCurrentClass this now m = Return None
  /\ getNextClass this now m = Return None
  /\ getTimeRemainingInClass this now m = Return None
  /\ getTimeUntilNextClass this now m = Return None
  /\ getMinutesUntilNextClass this now m = Return None
  /\ getDisplayTime this now m = Return (noClassText cfg)
  /\ getCurrentClassDetails this now m = Return None
  /\ getNextClassDetails this now m = Return None
  /\ Main.createContextMenu (Some this) now
     = Return [Main.lineItem "No Class"; separatorItem; quitItem].
Proof.
  intros Hs Hcfg Hday.
  assert (Htoday : getTodaySchedule this now = Return []).
  { unfold getTodaySchedule. rewrite Hs. destruct Hday as [-> | ->]; reflexivity. }
  assert (Hc : forall d, getCurrentClass this now d = Return None).
  { intros d. unfold getCurrentClass. rewrite Htoday. reflexivity. }
  assert (Hn : forall d, getNextClass this now d = Return None).
  { intros d. unfold getNextClass. rewrite Htoday. reflexivity. }
  unfold Main.createContextMenu, getDisplayTime, getCurrentClassDetails,
    getNextClassDetails, getTimeRemainingInClass, getTimeUntilNextClass,
    getMinutesUntilNextClass, readConfig.
  rewrite !Hc, !Hn, Hcfg. repeat split; reflexivity || exact Htoday.
Qed.

Lemma day_without_blocks_witness :
  getDisplayTime Examples.mondayOnly (Examples.moment 6 12 0 0) (Examples.moment 6 12 0 0)
  = Return ":)".
Proof.
  exact (proj1 (proj2 (proj2 (proj2 (proj2 (proj2 (proj2
           (day_without_blocks Examples.mondayOnly (Examples.moment 6 12 0 0)
              (Examples.moment 6 12 0 0) _ _ eq_refl eq_refl (or_introl eq_refl))))))))).
Defined.

(** *** What a successful load leaves behind *)

Lemma loadSchedule_success (YAML_parse : string -> completion (Value Document))
  (this : ScheduleManager.t) (fsys : FM.FileSystem) (r : unit) (w' : World) :
  loadSchedule YAML_parse (this, fsys) = (Return r, w') ->
  exists s c,
    loadable YAML_parse (this, fsys) s c
    /\ w' = ({| schedule := Some s; config := Some (withDefaults c);
                fileManager := fileManager this |}, fsys).
Proof.
  unfold loadSchedule, tryCatch, andThen, ScheduleManager.ensureScheduleFolderExists,
    ScheduleManager.getMostRecentScheduleFile, ScheduleManager.readFileSync,
    lift, throw, setConfig, setSchedule, loadable.
  step_load.
  pose proof (ensure_keeps_existing_folder (fileManager this) fsys) as Hsame.
  pose proof (ensure_keeps_files (fileManager this) fsys) as Hfiles.
  destruct (ScheduleFileManager.ensureScheduleFolderExists (fileManager this) fsys)
    as [ok fsys'] eqn:Hens.
  step_load. cbn [fst snd] in Hsame, Hfiles.
  rewrite Hsame.
  destruct (ScheduleFileManager.getMostRecentScheduleFile (fileManager this) fsys)
    as [path|] eqn:Hpath; step_load; [|discriminate].
  assert (Hfs : fsys' = fsys).
  { apply Hfiles; [exact path|].
    unfold ScheduleFileManager.getMostRecentScheduleFile in Hpath.
    destruct (ScheduleFileManager.folder fsys); congruence. }
  subst fsys'.
  destruct (ScheduleFileManager.readFileSync (fileManager this) fsys path)
    as [text|e] eqn:Hread; step_load; [|discriminate].
  destruct (YAML_parse text) as [[| |d]|e] eqn:Hparse; step_load; try discriminate.
  destruct (dataSchedule d) as [| |s] eqn:Hs; step_load; try discriminate.
  destruct (dataConfig d) as [| |c] eqn:Hc; step_load; try discriminate.
  intros [= _ <-]. exists s, c. split; [|reflexivity].
  exists path, text, d. repeat split; assumption.
Qed.

Lemma loadable_functional (YAML_parse : string -> completion (Value Document))
  (this1 this2 : ScheduleManager.t) (fsys : FM.FileSystem)
  (s1 s2 : gmap string (list Block)) (c1 c2 : RawConfig) :
  fileManager this2 = fileManager this1 ->
  loadable YAML_parse (this1, fsys) s1 c1 ->
  loadable YAML_parse (this2, fsys) s2 c2 ->
  s1 = s2 /\ c1 = c2.
Proof.
  unfold loadable. cbn [fst snd]. intros ->.
  intros (p1 & t1 & d1 & A1 & A2 & A3 & A4 & A5) (p2 & t2 & d2 & B1 & B2 & B3 & B4 & B5).
  rewrite A1 in B1. injection B1 as <-.
  rewrite A2 in B2. injection B2 as <-.
  rewrite A3 in B3. injection B3 as <-.
  rewrite A4 in B4. injection B4 as <-.
  rewrite A5 in B5. injection B5 as <-.
  split; reflexivity.
Qed.

(** A successful [loadSchedule] builds the whole state from the file: the
    schedule and the configuration it stores do not depend on what the
    instance held before, the file system is left as it was, and loading
    again right away changes nothing. *)
Theorem load_replaces_whole_state
  (YAML_parse : string -> completion (Value Document))
  (this1 this2 : ScheduleManager.t) (fsys : FM.FileSystem) (r : unit) (w1 : World) :
  loadSchedule YAML_parse (this1, fsys) = (Return r, w1) ->
  fileManager this2 = fileManager this1 ->
  loadSchedule YAML_parse (this2, fsys) = (Return tt, w1)
  /\ snd w1 = fsys
  /\ reloadSchedule YAML_parse w1 = (Return tt, w1).
Proof.
  intros Hload Hfm.
  destruct (loadSchedule_success _ _ _ _ _ Hload) as (s & c & Hl & ->).
  assert (Hany : forall this', fileManager this' = fileManager this1 ->
            loadSchedule YAML_parse (this', fsys)
            = (Return tt,
               ({| schedule := Some s; config := Some (withDefaults c);
                   fileManager := fileManager this1 |}, fsys))).
  { intros this' Hfm'.
    pose proof (loadSchedule_outcome YAML_parse (this', fsys)) as Hout.
    destruct (loadSchedule YAML_parse (this', fsys)) as [[[]|e] w'] eqn:Hl'.
    - destruct (loadSchedule_success _ _ _ _ _ Hl') as (s' & c' & Hl2 & ->).
      destruct (loadable_functional _ _ _ _ _ _ _ _ Hfm' Hl Hl2) as [<- <-].
      rewrite Hfm'. reflexivity.
    - exfalso. apply (proj2 Hout). exists s, c.
      unfold loadable in *. cbn [fst snd] in *. rewrite Hfm'. exact Hl. }
  split; [exact (Hany this2 Hfm)|]. split; [reflexivity|].
  unfold reloadSchedule. apply Hany. reflexivity.
Qed.

Lemma load_replaces_whole_state_witness :
  loadSchedule MoreExamples.parseSample (Examples.mondayOnly, MoreExamples.tied)
  = loadSchedule MoreExamples.parseSample (MoreExamples.blank, MoreExamples.tied).
Proof.
  destruct (loadSchedule MoreExamples.parseSample (MoreExamples.blank, MoreExamples.tied))
    as [[[]|e] w1] eqn:E; [|vm_compute in E; discriminate E].
  exact (proj1 (load_replaces_whole_state MoreExamples.parseSample MoreExamples.blank
                  Examples.mondayOnly MoreExamples.tied tt w1 E eq_refl)).
Defined.

(** *** The choice among schedule files *)

Lemma fold_left_filter {A B : Type} (p : B -> bool) (f : A -> B -> A)
  (l : list B) (a : A) :
  fold_left f (List.filter p l) a
  = fold_left (fun acc x => if p x then f acc x else acc) l a.
Proof.
  revert a. induction l as [|x l IH]; intros a; [reflexivity|].
  cbn [List.filter fold_left]. destruct (p x); [cbn [fold_left]|]; apply IH.
Qed.

Lemma mostRecent_scan_position (this : FM.t) (l : list FM.File) :
  let acc := fold_left (fun acc f => if FM.isYamlName (FM.name f)
                                     then FM.mostRecentStep this acc f else acc)
               l (None, 0) in
  0 <= snd acc
  /\ match fst acc with
     | None => snd acc = 0
               /\ forall g, In g l -> candidate g = true -> FM.mtimeMs g <= 0
     | Some p =>
         exists pre f post,
           l = (pre ++ f :: post)%list /\ candidate f = true
           /\ p = FM.pathJoin (FM.scheduleFolderPath this) (FM.name f)
           /\ FM.mtimeMs f = snd acc /\ 0 < FM.mtimeMs f
           /\ (forall g, In g pre -> candidate g = true -> FM.mtimeMs g < FM.mtimeMs f)
           /\ (forall g, In g post -> candidate g = true -> FM.mtimeMs g <= FM.mtimeMs f)
     end.
Proof.
  induction l as [|x l IH] using rev_ind; cbn zeta.
  - cbn. split; [lia | split; [reflexivity | intros g []]].
  - rewrite fold_left_app. cbn [fold_left]. cbn zeta in IH.
    destruct (fold_left _ l (None, 0)) as [o t0].
    cbn [fst snd] in IH. destruct IH as [Hpos Hsel].
    assert (Hkeep :
      candidate x = false \/ FM.mtimeMs x <= t0 ->
      match o with
      | None => t0 = 0
                /\ forall g, In g (l ++ [x])%list -> candidate g = true -> FM.mtimeMs g <= 0
      | Some p =>
          exists pre f post,
            (l ++ [x])%list = (pre ++ f :: post)%list /\ candidate f = true
            /\ p = FM.pathJoin (FM.scheduleFolderPath this) (FM.name f)
            /\ FM.mtimeMs f = t0 /\ 0 < FM.mtimeMs f
            /\ (forall g, In g pre -> candidate g = true -> FM.mtimeMs g < FM.mtimeMs f)
            /\ (forall g, In g post -> candidate g = true -> FM.mtimeMs g <= FM.mtimeMs f)
      end).
    { intros Hx. destruct o as [p|].
      - destruct Hsel as (pre & f & post & -> & Hf & Hp & Ht & H0 & Hpre & Hpost).
        exists pre, f, (post ++ [x])%list. rewrite <- app_assoc. cbn [app].
        repeat split; try assumption.
        intros g Hg Hc. apply in_app_or in Hg. destruct Hg as [Hg|[<-|[]]].
        + apply Hpost; assumption.
        + destruct Hx as [Hx|Hx]; [congruence | lia].
      - destruct Hsel as [Ht0 Hsel]. split; [exact Ht0|].
        intros g Hg Hc. apply in_app_or in Hg. destruct Hg as [Hg|[<-|[]]].
        + apply Hsel; assumption.
        + destruct Hx as [Hx|Hx]; [congruence | lia]. }
    assert (Hcand : candidate x
                    = (FM.isYamlName (FM.name x) && negb (FM.isSuspicious (FM.name x)))%bool)
      by reflexivity.
    unfold FM.mostRecentStep. cbn [fst snd].
    destruct (FM.isYamlName (FM.name x)) eqn:Hy; cbn [fst snd].
    2:{ split; [exact Hpos|]. apply Hkeep. left. rewrite Hcand. reflexivity. }
    destruct (FM.isSuspicious (FM.name x)) eqn:Hsus; cbn [fst snd].
    { split; [exact Hpos|]. apply Hkeep. left. rewrite Hcand. reflexivity. }
    destruct (t0 <? FM.mtimeMs x) eqn:Hlt; cbn [fst snd].
    2:{ apply Z.ltb_ge in Hlt. split; [exact Hpos|]. apply Hkeep. right. exact Hlt. }
    apply Z.ltb_lt in Hlt. split; [lia|].
    exists l, x, []. repeat split; try lia.
    + exact Hcand.
    + intros g Hg Hc. destruct o as [p|].
      * destruct Hsel as (pre & f & post & -> & Hf & Hp & Ht & H0 & Hpre & Hpost).
        apply in_app_or in Hg. destruct Hg as [Hg|[<-|Hg]].
        -- specialize (Hpre g Hg Hc). lia.
        -- lia.
        -- specialize (Hpost g Hg Hc). lia.
      * destruct Hsel as [Ht0 Hsel]. specialize (Hsel g Hg Hc). lia.
    + intros g [].
Qed.

(** The file [getMostRecentScheduleFile] returns is the first entry, in
    directory order, among the candidates with the greatest modification
    time: every candidate listed before it is strictly older, none listed
    after it is newer, and its own modification time is positive.  On a
    tie the entry listed first wins. *)
Theorem mostRecent_is_first_of_the_newest (this : FM.t) (fsys : FM.FileSystem)
  (p : string) :
  FM.getMostRecentScheduleFile this fsys = Some p ->
  exists pre f post,
    FM.folder fsys = Some (pre ++ f :: post)%list
    /\ candidate f = true
    /\ p = FM.pathJoin (FM.scheduleFolderPath this) (FM.name f)
    /\ 0 < FM.mtimeMs f
    /\ (forall g, In g pre -> candidate g = true -> FM.mtimeMs g < FM.mtimeMs f)
    /\ (forall g, In g post -> candidate g = true -> FM.mtimeMs g <= FM.mtimeMs f).
Proof.
  unfold FM.getMostRecentScheduleFile.
  destruct (FM.folder fsys) as [files|]; [|discriminate].
  destruct (List.filter (fun f => FM.isYamlName (FM.name f)) files) as [|y ys] eqn:Hfil;
    [discriminate|].
  rewrite <- Hfil, fold_left_filter. clear Hfil.
  pose proof (mostRecent_scan_position this files) as H. cbn zeta in H.
  destruct (fold_left _ files (None, 0)) as [o t0]. cbn [fst snd] in *.
  intros ->. destruct H as [_ (pre & f & post & -> & Hf & Hp & Ht & H0 & Hpre & Hpost)].
  exists pre, f, post. repeat split; assumption.
Qed.

Lemma mostRecent_is_first_of_the_newest_witness :
  exists pre f post,
    FM.folder MoreExamples.tied = Some (pre ++ f :: post)%list
    /\ candidate f = true
    /\ FM.pathJoin (FM.scheduleFolderPath Examples.manager) "a.yaml"
       = FM.pathJoin (FM.scheduleFolderPath Examples.manager) (FM.name f)
    /\ 0 < FM.mtimeMs f
    /\ (forall g, In g pre -> candidate g = true -> FM.mtimeMs g < FM.mtimeMs f)
    /\ (forall g, In g post -> candidate g = true -> FM.mtimeMs g <= FM.mtimeMs f).
Proof.
  exact (mostRecent_is_first_of_the_newest Examples.manager MoreExamples.tied
           (FM.pathJoin (FM.scheduleFolderPath Examples.manager) "a.yaml") eq_refl).
Defined.


(** [ensureScheduleFolderExists] answers [true] exactly when the folder
    exists afterwards; it leaves an existing folder and its entries as
    they are, running it a second time changes nothing more, and a folder
    it creates is empty, so it never makes a schedule file appear. *)
Theorem ensureScheduleFolderExists_idempotent (this : FM.t) (fsys : FM.FileSystem) :
  let ok := fst (FM.ensureScheduleFolderExists this fsys) in
  let after := snd (FM.ensureScheduleFolderExists this fsys) in
  (ok = true <-> FM.folder after <> None)
  /\ (FM.folder fsys <> None -> after = fsys)
  /\ (FM.folder fsys = None -> ok = true -> FM.folder after = Some [])
  /\ FM.ensureScheduleFolderExists this after = (ok, after)
  /\ FM.getMostRecentScheduleFile this after = FM.getMostRecentScheduleFile this fsys.
Proof.
  unfold FM.ensureScheduleFolderExists, FM.getMostRecentScheduleFile.
  destruct fsys as [[files|] fails]; cbn.
  - repeat split; congruence.
  - destruct fails; cbn; repeat split; congruence.
Qed.

Lemma ensureScheduleFolderExists_idempotent_witness :
  FM.folder (snd (FM.ensureScheduleFolderExists Examples.manager MoreExamples.missingFolder))
  = Some [].
Proof.
  exact (proj1 (proj2 (proj2 (ensureScheduleFolderExists_idempotent Examples.manager
                                MoreExamples.missingFolder)))
           eq_refl eq_refl).
Defined.

(** *** The watcher between its calls *)

Lemma lastOpt_in (ts : list Z) (t : Z) : lastOpt ts = Some t -> In t ts.
Proof.
  unfold lastOpt. intros H. apply List.in_rev.
  destruct (List.rev ts) as [|x xs]; [discriminate|].
  injection H as ->. left. reflexivity.
Qed.

Lemma settled_in (ts : list Z) (c : Z) :
  In c (settled ts) -> exists t, In t ts /\ c = t + FM.debounceDelay.
Proof.
  induction ts as [|t r IH]; [intros []|].
  destruct r as [|t2 r]; [intros []|].
  rewrite settled_cons. intros H. apply in_app_or in H. destruct H as [H|H].
  - destruct (t + FM.debounceDelay <=? t2); [|destruct H].
    destruct H as [<-|[]]. exists t. split; [left|]; reflexivity.
  - destruct (IH H) as (u & Hu & ->). exists u. split; [right; exact Hu | reflexivity].
Qed.

Lemma settled_length (ts : list Z) :
  (length (settled ts) <= Nat.pred (length ts))%nat.
Proof.
  induction ts as [|t r IH]; [cbn; lia|].
  destruct r as [|t2 r]; [cbn; lia|].
  rewrite settled_cons, length_app.
  cbn [length Nat.pred] in *.
  destruct (t + FM.debounceDelay <=? t2); cbn [length]; lia.
Qed.

Lemma expected_length (ts : list Z) : (length (expected ts) <= length ts)%nat.
Proof.
  unfold expected. rewrite length_app. pose proof (settled_length ts) as H.
  destruct (lastOpt ts) as [t|] eqn:E.
  - destruct ts as [|x r]; [discriminate E|]. cbn [length Nat.pred] in *. lia.
  - apply lastOpt_none in E. subst ts. cbn. lia.
Qed.

(** Whatever the gaps between the events, no change goes unreported: the
    last invocation of the callback comes [300] ms after the last
    qualifying event; the callback is invoked at most once per qualifying
    event, never without one, and only ever [300] ms after one. *)
Theorem every_change_is_reported (path : string) (callback : nat) (start : Z)
  (events : list (Z * option string)) :
  inOrder start (List.map fst events) = true ->
  let calls := FM.invoked (FM.run events (watching path callback start)) in
  let qs := qualifyingTimes events in
  (forall t, lastOpt qs = Some t -> lastOpt calls = Some (t + FM.debounceDelay))
  /\ (qs = [] -> calls = [])
  /\ (length calls <= length qs)%nat
  /\ (forall c, In c calls -> exists t, In t qs /\ c = t + FM.debounceDelay).
Proof.
  intros Hord. cbn zeta. rewrite (run_expected path callback start events Hord).
  split; [|split; [|split]].
  - intros t Ht. unfold expected. rewrite Ht. apply lastOpt_snoc.
  - intros ->. reflexivity.
  - apply expected_length.
  - intros c Hc. unfold expected in Hc. apply in_app_or in Hc. destruct Hc as [Hc|Hc].
    + apply settled_in. exact Hc.
    + destruct (lastOpt (qualifyingTimes events)) as [t|] eqn:E; [|destruct Hc].
      destruct Hc as [<-|[]]. exists t. split; [apply lastOpt_in; exact E | reflexivity].
Qed.

Lemma every_change_is_reported_witness :
  lastOpt (FM.invoked (FM.run [(1000, Some "a.yaml"); (1100, Some "a.yaml");
                               (2000, Some "b.yml"); (2100, Some "notes.txt")]
                         (watching "/schedules" 7 0)))
  = Some (2000 + FM.debounceDelay).
Proof.
  exact (proj1 (every_change_is_reported "/schedules" 7 0
                  [(1000, Some "a.yaml"); (1100, Some "a.yaml");
                   (2000, Some "b.yml"); (2100, Some "notes.txt")] eq_refl)
           2000 eq_refl).
Defined.

(** While the watcher runs there is at most one pending timer: the one
    [this.debounceTimer] names, set by the last qualifying event and due
    [300] ms after it. *)
Theorem one_pending_timer (path : string) (callback : nat) (start : Z)
  (events : list (Z * option string)) :
  inOrder start (List.map fst events) = true ->
  let l := fold_left FM.deliver events (watching path callback start) in
  (length (FM.timers l) <= 1)%nat
  /\ forall tm, In tm (FM.timers l) ->
       FM.debounceTimer (FM.self l) = Some (FM.timerId tm)
       /\ FM.clock l < FM.due tm
       /\ exists t, lastOpt (qualifyingTimes events) = Some t
                    /\ FM.due tm = t + FM.debounceDelay.
Proof.
  intros Hord. cbn zeta.
  destruct (deliveries_debounced events _ [] start
              (watching_debounced path callback start) Hord) as [T' H].
  cbn [app] in H. destruct H as (_ & _ & Hclk & H).
  destruct (lastOpt (qualifyingTimes events)) as [t|].
  - destruct H as [Hle [(Hlt & (id & Hid & Htm) & _) | (_ & Htm & _)]];
      rewrite Htm; cbn [length]; (split; [lia|]).
    + intros tm [<-|[]]. cbn [FM.timerId FM.due].
      split; [exact Hid|]. split; [lia|]. exists t. split; reflexivity.
    + intros tm [].
  - destruct H as [Htm _]. rewrite Htm. cbn [length]. split; [lia | intros tm []].
Qed.

Lemma one_pending_timer_witness :
  (length (FM.timers (fold_left FM.deliver DebounceExample.oneSave
                        (watching "/schedules" 7 0))) <= 1)%nat.
Proof.
  exact (proj1 (one_pending_timer "/schedules" 7 0 DebounceExample.oneSave eq_refl)).
Defined.

Lemma onDebounce_without_callback (l : FM.Loop) (tms : list FM.Timer) :
  FM.changeCallback (FM.self l) = None ->
  let l' := fold_left (fun acc tm => FM.onDebounce (FM.due tm) acc) tms l in
  FM.invoked l' = FM.invoked l /\ FM.self l' = FM.self l /\ FM.timers l' = FM.timers l.
Proof.
  revert l. induction tms as [|tm tms IH]; intros l Hcb; cbn zeta.
  - repeat split.
  - cbn [fold_left].
    assert (Hstep : FM.invoked (FM.onDebounce (FM.due tm) l) = FM.invoked l
                    /\ FM.self (FM.onDebounce (FM.due tm) l) = FM.self l
                    /\ FM.timers (FM.onDebounce (FM.due tm) l) = FM.timers l).
    { unfold FM.onDebounce. rewrite Hcb. repeat split. }
    destruct Hstep as (Hi & Hs & Ht).
    specialize (IH (FM.onDebounce (FM.due tm) l)). cbn zeta in IH.
    rewrite Hs in IH. destruct (IH Hcb) as (Hi' & Hs' & Ht').
    rewrite Hi', Hs', Ht', Hi, Ht. repeat split; try assumption.
Qed.

Lemma clearTimeout_keeps (id : option nat) (l : FM.Loop) :
  FM.invoked (FM.clearTimeout id l) = FM.invoked l
  /\ FM.self (FM.clearTimeout id l) = FM.self l.
Proof. destruct id; split; reflexivity. Qed.

Lemma onWatchEvent_keeps (filename : option string) (l : FM.Loop) :
  FM.invoked (FM.onWatchEvent filename l) = FM.invoked l
  /\ FM.changeCallback (FM.self (FM.onWatchEvent filename l)) = FM.changeCallback (FM.self l)
  /\ FM.fileWatcher (FM.self (FM.onWatchEvent filename l)) = FM.fileWatcher (FM.self l).
Proof.
  unfold FM.onWatchEvent.
  destruct filename as [[|a file]|]; try (repeat split; fail).
  destruct (negb _ && negb _); [repeat split|].
  unfold FM.setTimeout, FM.setSelf. cbn.
  destruct (clearTimeout_keeps (FM.debounceTimer (FM.self l)) l) as [Hi Hs].
  rewrite Hi, Hs. repeat split.
Qed.

Lemma deliver_without_callback (l : FM.Loop) (ev : Z * option string) :
  FM.changeCallback (FM.self l) = None ->
  FM.invoked (FM.deliver l ev) = FM.invoked l
  /\ FM.changeCallback (FM.self (FM.deliver l ev)) = None.
Proof.
  intros Hcb. unfold FM.deliver.
  assert (Hrun : FM.invoked (FM.runTimers (fst ev) l) = FM.invoked l
                 /\ FM.self (FM.runTimers (fst ev) l) = FM.self l).
  { unfold FM.runTimers. cbn zeta. cbn [FM.invoked FM.self].
    match goal with
    | |- context [fold_left ?f ?tms ?l0] =>
        destruct (onDebounce_without_callback l0 tms Hcb) as (Hi & Hs & _)
    end.
    cbn zeta in Hi, Hs. rewrite Hi, Hs. split; reflexivity. }
  destruct Hrun as [Hi Hs].
  destruct (FM.fileWatcher (FM.self (FM.runTimers (fst ev) l))).
  - destruct (onWatchEvent_keeps (snd ev) (FM.runTimers (fst ev) l)) as (Hi' & Hc' & _).
    rewrite Hi', Hc', Hi, Hs. split; [reflexivity | exact Hcb].
  - rewrite Hi, Hs. split; [reflexivity | exact Hcb].
Qed.

Lemma run_without_callback (events : list (Z * option string)) (l : FM.Loop) :
  FM.changeCallback (FM.self l) = None ->
  FM.invoked (FM.run events l) = FM.invoked l.
Proof.
  unfold FM.run. revert l. induction events as [|ev events IH]; intros l Hcb.
  - cbn [fold_left]. unfold FM.drain.
    match goal with
    | |- context [fold_left ?f ?tms ?l0] =>
        destruct (onDebounce_without_callback l0 tms Hcb) as (Hi & _)
    end.
    exact Hi.
  - cbn [fold_left]. destruct (deliver_without_callback l ev Hcb) as [Hi Hc].
    rewrite (IH _ Hc). exact Hi.
Qed.

(** Once [stopWatchingScheduleFolder] has run, the callback is never
    invoked again, whatever events follow: a change still waiting for its
    debounce timer is dropped with the timer.  Stopping a second time
    changes nothing. *)
Theorem stop_drops_the_pending_change (path : string) (callback : nat) (start : Z)
  (events later : list (Z * option string)) :
  inOrder start (List.map fst events) = true ->
  let l := fold_left FM.deliver events (watching path callback start) in
  let stopped := FM.stopWatchingScheduleFolder l in
  FM.timers stopped = []
  /\ FM.invoked (FM.run later stopped) = FM.invoked l
  /\ FM.stopWatchingScheduleFolder stopped = stopped.
Proof.
  intros Hord. cbn zeta.
  destruct (deliveries_debounced events _ [] start
              (watching_debounced path callback start) Hord) as [T' H].
  cbn [app] in H. destruct H as (_ & _ & _ & H).
  set (l := fold_left FM.deliver events (watching path callback start)) in *.
  assert (Htimers : FM.timers (FM.stopWatchingScheduleFolder l) = []).
  { unfold FM.stopWatchingScheduleFolder. cbn zeta. unfold FM.setSelf. cbn [FM.timers].
    destruct (lastOpt (qualifyingTimes events)) as [t|].
    - destruct H as [_ [(_ & (id & Hid & Htm) & _) | (_ & Htm & _)]].
      + rewrite Hid. cbn [FM.clearTimeout FM.timers]. rewrite Htm.
        cbn [List.filter FM.timerId]. rewrite Nat.eqb_refl. reflexivity.
      + destruct (FM.debounceTimer (FM.self l)) as [id|];
          cbn [FM.clearTimeout FM.timers]; rewrite Htm; reflexivity.
    - destruct H as [Htm _].
      destruct (FM.debounceTimer (FM.self l)) as [id|];
        cbn [FM.clearTimeout FM.timers]; rewrite Htm; reflexivity. }
  split; [exact Htimers|]. split.
  - rewrite run_without_callback.
    + unfold FM.stopWatchingScheduleFolder. cbn zeta. unfold FM.setSelf. cbn [FM.invoked].
      destruct (FM.debounceTimer (FM.self l)); [|reflexivity].
      apply clearTimeout_keeps.
    + reflexivity.
  - reflexivity.
Qed.

Lemma stop_drops_the_pending_change_witness :
  FM.invoked (FM.run [(5000, Some "schedule.yaml")]
                (FM.stopWatchingScheduleFolder
                   (fold_left FM.deliver [(1000, Some "schedule.yaml")]
                      (watching "/schedules" 7 0))))
  = [].
Proof.
  exact (proj1 (proj2 (stop_drops_the_pending_change "/schedules" 7 0
                         [(1000, Some "schedule.yaml")] [(5000, Some "schedule.yaml")]
                         eq_refl))).
Defined.

(** The ['error'] listener stops the watcher and starts it again with
    [this.changeCallback], which [stopWatchingScheduleFolder] has just set
    to [null]: the folder is watched again, but from then on no event
    leads to an invocation of the callback that was registered. *)
Theorem restart_after_error_forgets_callback (l : FM.Loop)
  (later : list (Z * option string)) :
  let restarted := FM.onWatcherError l in
  FM.fileWatcher (FM.self restarted) = true
  /\ FM.changeCallback (FM.self restarted) = None
  /\ FM.invoked (FM.run later restarted) = FM.invoked l.
Proof.
  cbn zeta. split; [reflexivity|]. split; [reflexivity|].
  rewrite run_without_callback; [|reflexivity].
  unfold FM.onWatcherError, FM.watchScheduleFolder, FM.stopWatchingScheduleFolder.
  cbn zeta. unfold FM.setSelf. cbn [FM.invoked].
  destruct (FM.debounceTimer (FM.self l)); [|reflexivity].
  apply clearTimeout_keeps.
Qed.
